(** * OpenNotionAI: credential connector and Notion tool adapters

    A shallow embedding of the client-side credential connector
    ([NotionConnector]) and of the Notion tool adapters ([notionRetrieveABlock],
    [notionRetrieveAPage], [notionPostSearch], ...), with the properties the
    specification states about them.

    ECMAScript strings are sequences of UTF-16 code units; they are modelled
    as lists of code units, so that [trim], [split] and [substring] act on the
    same positions as in the program. *)

From Stdlib Require Import ZArith NArith Lia Ascii String.
From stdpp Require Import base option list strings gmap.

Set Warnings "-register-all".

(** ** ECMAScript strings *)

Module JS.

Abbreviation jsstring := (list N).

(** A string literal of the program (all literals used here are ASCII). *)
Definition lit (s : string) : jsstring :=
  (fun a => N_of_ascii a) <$> list_ascii_of_string s.
Arguments lit s%_string.

(** Truthiness of a string: every string but the empty one. *)
Definition truthy (s : jsstring) : bool :=
  match s with [] => false | _ :: _ => true end.

(** Truthiness of [string | null] (and of [string | undefined]). *)
Definition truthy_opt (o : option jsstring) : bool :=
  match o with None => false | Some s => truthy s end.

(** WhiteSpace and LineTerminator code units, the set [String.prototype.trim]
    strips: TAB, LF, VT, FF, CR, SP, NBSP, U+1680, U+2000..U+200A, LS, PS,
    U+202F, U+205F, U+3000 and the byte order mark. *)
Definition is_white_space (c : N) : bool :=
  match c with
  | 9 | 10 | 11 | 12 | 13 | 32 | 160 | 5760
  | 8232 | 8233 | 8239 | 8287 | 12288 | 65279 => true
  | _ => (8192 <=? c) && (c <=? 8202)
  end%N.

Fixpoint trimStart (s : jsstring) : jsstring :=
  match s with
  | [] => []
  | c :: r => if is_white_space c then trimStart r else s
  end.

Fixpoint trimEnd (s : jsstring) : jsstring :=
  match s with
  | [] => []
  | c :: r =>
      match trimEnd r with
      | [] => if is_white_space c then [] else [c]
      | r' => c :: r'
      end
  end.

(** [s.trim()] *)
Definition trim (s : jsstring) : jsstring := trimEnd (trimStart s).

(** [s.substring(0, n)] *)
Definition substring0 (n : nat) (s : jsstring) : jsstring := take n s.

(** [s.split(sep)] for a separator of one code unit. The result is never
    empty: the empty string splits into one empty piece. *)
Fixpoint split (sep : N) (s : jsstring) : list jsstring :=
  match s with
  | [] => [[]]
  | c :: r =>
      if (c =? sep)%N then [] :: split sep r
      else match split sep r with
           | [] => [[c]]
           | piece :: pieces => (c :: piece) :: pieces
           end
  end.

(** Decimal digits of a positive integer, most significant first. *)
Fixpoint uint_units (d : Decimal.uint) : jsstring :=
  match d with
  | Decimal.Nil => []
  | Decimal.D0 d => 48%N :: uint_units d
  | Decimal.D1 d => 49%N :: uint_units d
  | Decimal.D2 d => 50%N :: uint_units d
  | Decimal.D3 d => 51%N :: uint_units d
  | Decimal.D4 d => 52%N :: uint_units d
  | Decimal.D5 d => 53%N :: uint_units d
  | Decimal.D6 d => 54%N :: uint_units d
  | Decimal.D7 d => 55%N :: uint_units d
  | Decimal.D8 d => 56%N :: uint_units d
  | Decimal.D9 d => 57%N :: uint_units d
  end.

(** [Number.prototype.toString] on an integer value, as a template literal
    or [String(n)] applies it. The positional notation below is what
    ECMAScript prints for magnitudes under 10^21; HTTP status codes and page
    sizes a caller would send are far inside that range. *)
Definition Number_toString (z : Z) : jsstring :=
  match z with
  | Z0 => [48%N]
  | Zpos p => uint_units (Pos.to_uint p)
  | Zneg p => 45%N :: uint_units (Pos.to_uint p)
  end.

(** [s] occurs in [t] as a contiguous run of code units. *)
Definition contains (t s : jsstring) : Prop :=
  exists before after, t = before ++ s ++ after.

(** [t] ends with [s]. *)
Definition ends_with (t s : jsstring) : Prop :=
  exists before, t = before ++ s.

(** String equality ([===] on strings). *)
Fixpoint str_eqb (a b : jsstring) : bool :=
  match a, b with
  | [], [] => true
  | x :: a', y :: b' => (x =? y)%N && str_eqb a' b'
  | _, _ => false
  end.

(** *** Unicode conversions of the web platform *)

Definition is_high_surrogate (c : N) : bool :=
  ((55296 <=? c) && (c <=? 56319))%N.
Definition is_low_surrogate (c : N) : bool :=
  ((56320 <=? c) && (c <=? 57343))%N.

(** The code points of a string, as the conversion to a [USVString] reads
    them: a surrogate pair is one code point, an unpaired surrogate becomes
    U+FFFD. *)
Fixpoint code_points (s : jsstring) : list N :=
  match s with
  | [] => []
  | c :: r =>
      if is_high_surrogate c then
        match r with
        | d :: r' =>
            if is_low_surrogate d
            then (65536 + (c - 55296) * 1024 + (d - 56320))%N :: code_points r'
            else 65533%N :: code_points r
        | [] => [65533%N]
        end
      else if is_low_surrogate c then 65533%N :: code_points r
      else c :: code_points r
  end.

Definition utf16_encode_point (p : N) : jsstring :=
  if (p <? 65536)%N then [p]
  else [(55296 + (p - 65536) / 1024)%N; (56320 + (p - 65536) mod 1024)%N].

Definition utf16_encode (ps : list N) : jsstring :=
  ps ≫= utf16_encode_point.

(** The string a platform API that takes a [USVString] receives. *)
Definition USVString (s : jsstring) : jsstring := utf16_encode (code_points s).

Definition utf8_encode_point (p : N) : list N :=
  if (p <? 128)%N then [p]
  else if (p <? 2048)%N then [(192 + p / 64)%N; (128 + p mod 64)%N]
  else if (p <? 65536)%N then
    [(224 + p / 4096)%N; (128 + (p / 64) mod 64)%N; (128 + p mod 64)%N]
  else
    [(240 + p / 262144)%N; (128 + (p / 4096) mod 64)%N;
     (128 + (p / 64) mod 64)%N; (128 + p mod 64)%N].

(** The decoder's state inside a multi-byte sequence: the code point read so
    far, the number of bytes still needed, and the range the next byte must
    lie in. *)
Record Utf8Pending := mkPending {
  pending_point : N;
  pending_needed : nat;
  pending_lower : N;
  pending_upper : N;
}.

(** UTF-8 decode, errors replaced by U+FFFD; a byte that cannot continue a
    sequence ends it and is read again as a first byte. *)
Fixpoint utf8_decode_from (st : option Utf8Pending) (bs : list N) : list N :=
  match bs with
  | [] => match st with Some _ => [65533%N] | None => [] end
  | b :: r =>
      let first :=
        if (b <? 128)%N then b :: utf8_decode_from None r
        else if ((194 <=? b) && (b <=? 223))%N then
          utf8_decode_from (Some (mkPending (b - 192) 1 128 191)) r
        else if ((224 <=? b) && (b <=? 239))%N then
          utf8_decode_from
            (Some (mkPending (b - 224) 2
                     (if (b =? 224)%N then 160%N else 128%N)
                     (if (b =? 237)%N then 159%N else 191%N))) r
        else if ((240 <=? b) && (b <=? 244))%N then
          utf8_decode_from
            (Some (mkPending (b - 240) 3
                     (if (b =? 240)%N then 144%N else 128%N)
                     (if (b =? 244)%N then 143%N else 191%N))) r
        else 65533%N :: utf8_decode_from None r in
      match st with
      | None => first
      | Some p =>
          if ((pending_lower p <=? b) && (b <=? pending_upper p))%N then
            let point := (pending_point p * 64 + (b - 128))%N in
            match pending_needed p with
            | S (S n) =>
                utf8_decode_from (Some (mkPending point (S n) 128 191)) r
            | _ => point :: utf8_decode_from None r
            end
          else 65533%N :: first
      end
  end.

Definition utf8_decode (bs : list N) : list N := utf8_decode_from None bs.

Definition hex_value (c : N) : option N :=
  if ((48 <=? c) && (c <=? 57))%N then Some (c - 48)%N
  else if ((65 <=? c) && (c <=? 70))%N then Some (c - 55)%N
  else if ((97 <=? c) && (c <=? 102))%N then Some (c - 87)%N
  else None.

(** Percent-decoding: the bytes of the UTF-8 encoded text, each [%XY]
    escape standing for the byte it names. *)
Fixpoint percent_decode (ps : list N) : list N :=
  match ps with
  | [] => []
  | p :: r =>
      if (p =? 37)%N then
        match r with
        | h :: l :: r' =>
            match hex_value h, hex_value l with
            | Some x, Some y => (x * 16 + y)%N :: percent_decode r'
            | _, _ => utf8_encode_point p ++ percent_decode r
            end
        | _ => utf8_encode_point p ++ percent_decode r
        end
      else utf8_encode_point p ++ percent_decode r
  end.

End JS.

Import JS.

(** ** The credential connector ([NotionConnector]) *)

Module Connector.

Definition NOTION_TOKEN_LOCAL_STORAGE_KEY : jsstring :=
  lit "notionIntegrationSecret".

(** The component state: the three [useState] cells. *)
Record State := mkState {
  open : bool;
  secretInputValue : jsstring;
  isConfigured : bool;
}.

(** The component together with what it acts on: the browser's
    [localStorage] and the console. *)
Record World := mkWorld {
  state : State;
  localStorage : gmap (list N) (list N);
  console : list jsstring;
}.

Definition setOpen (b : bool) (s : State) : State :=
  mkState b (secretInputValue s) (isConfigured s).
Definition setSecretInputValue (v : jsstring) (s : State) : State :=
  mkState (open s) v (isConfigured s).
Definition setIsConfigured (b : bool) (s : State) : State :=
  mkState (open s) (secretInputValue s) b.

(** The initial values given to [useState]. *)
Definition initial_state : State := mkState false [] false.

(** The effect run once after the first render. *)
Definition useEffect (w : World) : World :=
  let storedToken := localStorage w !! NOTION_TOKEN_LOCAL_STORAGE_KEY in
  if truthy_opt storedToken then
    mkWorld (setIsConfigured true (state w)) (localStorage w) (console w)
  else
    mkWorld (setSecretInputValue [] (setIsConfigured false (state w)))
            (localStorage w) (console w).

(** Mounting the component against a given storage: fresh state cells, then
    the effect. The console is taken as empty at that point. *)
Definition mount (storage : gmap (list N) (list N)) : World :=
  useEffect (mkWorld initial_state storage []).

Section Handlers.

Variable chatId : jsstring.

Definition handleSaveSecret (w : World) : World :=
  let s := state w in
  if truthy (trim (secretInputValue s)) then
    mkWorld
      (setOpen false (setIsConfigured true s))
      (<[NOTION_TOKEN_LOCAL_STORAGE_KEY := trim (secretInputValue s)]>
         (localStorage w))
      (console w ++
         [lit "Saved Notion Integration Secret for chat " ++ chatId ++
          lit " to local storage."])
  else w.

Definition handleSaveOnCloud (w : World) : World :=
  let s := state w in
  if truthy (trim (secretInputValue s)) then
    mkWorld s (localStorage w)
      (console w ++
         [lit "Simulating save on cloud for Notion Integration Secret for chat "
          ++ chatId ++ lit ": " ++ substring0 5 (secretInputValue s)
          ++ lit "..."])
  else w.

Definition handleClearSecret (w : World) : World :=
  mkWorld
    (setIsConfigured false (setSecretInputValue [] (state w)))
    (delete NOTION_TOKEN_LOCAL_STORAGE_KEY (localStorage w))
    (console w ++
       [lit "Cleared Notion Integration Secret for chat " ++ chatId ++
        lit " from local storage."]).

(** What the component renders. *)
Inductive Icon := GlobeIcon | WarningIcon.

Inductive HelpText :=
| HintEnterToken      (* "Enter your Notion integration token ..." *)
| HintAboutToUpdate   (* "You are about to update the existing configuration." *)
| HintConfigured.     (* "Notion is configured. Enter a new secret to update." *)

Record View := mkView {
  menuOpen : bool;
  buttonLabel : jsstring;
  buttonIcon : Icon;
  inputId : jsstring;
  inputValue : jsstring;        (* the value of the password input *)
  helpText : HelpText;
  disconnectShown : bool;
  saveLabel : jsstring;
  saveDisabled : bool;
  cloudDisabled : bool;
}.

Definition render (s : State) : View :=
  mkView
    (open s)
    (if isConfigured s then lit "Notion Connected" else lit "Connect Notion")
    (if isConfigured s then GlobeIcon else WarningIcon)
    (lit "notion-secret-input-" ++ chatId)
    (secretInputValue s)
    (if isConfigured s
     then if truthy (secretInputValue s) then HintAboutToUpdate
          else HintConfigured
     else HintEnterToken)
    (isConfigured s)
    (if isConfigured s then lit "Update Secret" else lit "Save Secret")
    (negb (truthy (trim (secretInputValue s))))
    (negb (truthy (trim (secretInputValue s)))).

(** What the user can do to the rendered component. A button that is not
    rendered, or is disabled, fires no handler. *)
Inductive Event :=
| OpenChange (b : bool)          (* the dropdown's [onOpenChange] *)
| Change (v : jsstring)          (* the input's [onChange] *)
| ClickDisconnect
| ClickSave
| ClickSaveOnCloud.

Definition step (e : Event) (w : World) : World :=
  match e with
  | OpenChange b => mkWorld (setOpen b (state w)) (localStorage w) (console w)
  | Change v =>
      mkWorld (setSecretInputValue v (state w)) (localStorage w) (console w)
  | ClickDisconnect =>
      if disconnectShown (render (state w)) then handleClearSecret w else w
  | ClickSave =>
      if saveDisabled (render (state w)) then w else handleSaveSecret w
  | ClickSaveOnCloud =>
      if cloudDisabled (render (state w)) then w else handleSaveOnCloud w
  end.



End Handlers.

(** The invariant of the storage slot: a stored credential is a non-empty
    string without white space at either end. *)
Definition trimmed (s : jsstring) : Prop :=
  s <> [] /\
  (forall c, head s = Some c -> is_white_space c = false) /\
  (forall c, last s = Some c -> is_white_space c = false).

Definition slot_ok (storage : gmap (list N) (list N)) : Prop :=
  forall tok, storage !! NOTION_TOKEN_LOCAL_STORAGE_KEY = Some tok -> trimmed tok.

End Connector.

(** ** JSON values *)

Module Json.

(** A JSON number: an integer, or a fraction [num/den] otherwise. *)
Inductive number :=
| Int (z : Z)
| Ratio (num : Z) (den : positive).

Definition is_integer (n : number) : bool :=
  match n with
  | Int _ => true
  | Ratio num den => (num mod Z.pos den =? 0)%Z
  end.

Definition integer_value (n : number) : Z :=
  match n with
  | Int z => z
  | Ratio num den => (num / Z.pos den)%Z
  end.

(** [n <= bound] for an integer bound. *)
Definition number_le (n : number) (bound : Z) : bool :=
  match n with
  | Int z => (z <=? bound)%Z
  | Ratio num den => (num <=? bound * Z.pos den)%Z
  end.

(** Objects keep their members in insertion order, one member per key, as
    [JSON.parse] builds them. *)
Inductive json :=
| JNull
| JBool (b : bool)
| JNumber (n : number)
| JString (s : jsstring)
| JArray (items : list json)
| JObject (members : list (jsstring * json)).

(** [o[k]]: [None] stands for [undefined]. *)
Fixpoint member (k : jsstring) (o : list (jsstring * json)) : option json :=
  match o with
  | [] => None
  | (k', v) :: r => if str_eqb k k' then Some v else member k r
  end.

Definition has_key (k : jsstring) (o : list (jsstring * json)) : bool :=
  match member k o with Some _ => true | None => false end.

(** Property access on a value that is known to be an object. *)
Definition field (k : jsstring) (v : json) : option json :=
  match v with
  | JObject o => member k o
  | _ => None
  end.

End Json.

Import Json.

(** ** The schema language (zod) *)

Module Zod.

(** The schema combinators the adapters use. [describe] has no effect on
    parsing and is left out. *)
Inductive Schema :=
| ZString (max : option nat) (url : bool)
| ZNumber (int : bool) (max : option Z)
| ZBoolean
| ZLiteral (v : jsstring)
| ZEnum (values : list jsstring)
| ZAny
| ZObject (strict : bool) (shape : list (jsstring * Schema))
| ZArray (min max : option nat) (element : Schema)
| ZUnion (options : list Schema)
| ZRecord (value : Schema)
| ZOptional (inner : Schema)
| ZNullable (inner : Schema)
| ZDefault (inner : Schema) (v : json)
| ZRefine (inner : Schema) (check : json -> bool).

Definition within (min max : option nat) (n : nat) : bool :=
  match min with Some lo => (lo <=? n)%nat | None => true end &&
  match max with Some hi => (n <=? hi)%nat | None => true end.

Section Parse.

(** Whether the platform's URL parser accepts a string (the test behind
    [z.string().url()]). *)
Variable url_parses : jsstring -> bool.

(** [schema.safeParse(input)]. The input and the output are [None] for
    [undefined]; the outer [None] is a failed parse. An object schema reads
    its shape's keys in order, drops unknown keys, or rejects them when
    strict; the output holds the keys whose value is defined. A refinement
    sits on an object schema here, so the value it checks is defined. *)
Fixpoint parse (s : Schema) (input : option json) {struct s}
  : option (option json) :=
  match s with
  | ZString max url =>
      match input with
      | Some (JString v) =>
          if match max with Some n => (length v <=? n)%nat | None => true end
             && (if url then url_parses v else true)
          then Some input else None
      | _ => None
      end
  | ZNumber int max =>
      match input with
      | Some (JNumber n) =>
          if (if int then is_integer n else true)
             && match max with Some b => number_le n b | None => true end
          then Some input else None
      | _ => None
      end
  | ZBoolean =>
      match input with Some (JBool _) => Some input | _ => None end
  | ZLiteral v =>
      match input with
      | Some (JString x) => if str_eqb x v then Some input else None
      | _ => None
      end
  | ZEnum values =>
      match input with
      | Some (JString x) =>
          if existsb (str_eqb x) values then Some input else None
      | _ => None
      end
  | ZAny => Some input
  | ZObject strict shape =>
      match input with
      | Some (JObject data) =>
          let fix fields (sh : list (jsstring * Schema))
            : option (list (jsstring * json)) :=
            match sh with
            | [] => Some []
            | (k, sk) :: rest =>
                match parse sk (member k data), fields rest with
                | Some (Some v), Some out => Some ((k, v) :: out)
                | Some None, Some out => Some out
                | _, _ => None
                end
            end in
          let fix known (k : jsstring) (sh : list (jsstring * Schema)) : bool :=
            match sh with
            | [] => false
            | (k', _) :: rest => str_eqb k k' || known k rest
            end in
          if strict && negb (forallb (fun kv => known (fst kv) shape) data)
          then None
          else match fields shape with
               | Some out => Some (Some (JObject out))
               | None => None
               end
      | _ => None
      end
  | ZArray min max element =>
      match input with
      | Some (JArray items) =>
          let fix elements (l : list json) : option (list json) :=
            match l with
            | [] => Some []
            | x :: rest =>
                match parse element (Some x), elements rest with
                | Some (Some v), Some out => Some (v :: out)
                | _, _ => None
                end
            end in
          if within min max (length items)
          then match elements items with
               | Some out => Some (Some (JArray out))
               | None => None
               end
          else None
      | _ => None
      end
  | ZUnion options =>
      (fix first (os : list Schema) : option (option json) :=
         match os with
         | [] => None
         | o :: rest =>
             match parse o input with
             | Some out => Some out
             | None => first rest
             end
         end) options
  | ZRecord value =>
      match input with
      | Some (JObject data) =>
          let fix entries (l : list (jsstring * json))
            : option (list (jsstring * json)) :=
            match l with
            | [] => Some []
            | (k, x) :: rest =>
                match parse value (Some x), entries rest with
                | Some (Some v), Some out => Some ((k, v) :: out)
                | Some None, Some out => Some out
                | _, _ => None
                end
            end in
          match entries data with
          | Some out => Some (Some (JObject out))
          | None => None
          end
      | _ => None
      end
  | ZOptional inner =>
      match input with
      | None => Some None
      | Some _ => parse inner input
      end
  | ZNullable inner =>
      match input with
      | Some JNull => Some input
      | _ => parse inner input
      end
  | ZDefault inner v =>
      match input with
      | None => parse inner (Some v)
      | Some _ => parse inner input
      end
  | ZRefine inner check =>
      match parse inner input with
      | Some (Some v) => if check v then Some (Some v) else None
      | Some None => None
      | None => None
      end
  end.

End Parse.

(** Shorthands for the schemas that recur. *)
Definition zstring : Schema := ZString None false.
Definition zstring_max (n : nat) : Schema := ZString (Some n) false.
Definition zobject := ZObject false.
Definition zstrict := ZObject true.
Definition zarray := ZArray None None.
(** [z.number().int().max(100)] *)
Definition zpage_size : Schema := ZNumber true (Some 100%Z).

End Zod.

Import Zod.

(** ** The web platform: URLs, requests, responses *)

Module Web.

(** A URL as the program builds it: the text before the query, the query
    parameters in order, and the fragment. Serialisation to text
    ([URLSearchParams.toString], [URL.toString]) is not modelled: a request
    carries this structure. *)
Record Url := mkUrl {
  target : jsstring;
  searchParams : list (jsstring * jsstring);
  hash : option jsstring;
}.

(** The part of [s] before the first [sep], and the part after it if [sep]
    occurs. *)
Fixpoint cut (sep : N) (s : jsstring) : jsstring * option jsstring :=
  match s with
  | [] => ([], None)
  | c :: r =>
      if (c =? sep)%N then ([], Some r)
      else let '(a, b) := cut sep r in (c :: a, b)
  end.

(** A name or value of an [application/x-www-form-urlencoded] pair: [+] is a
    space, then percent-decoding and UTF-8 decoding. *)
Definition form_decode (s : jsstring) : jsstring :=
  utf16_encode
    (utf8_decode
       (percent_decode
          (code_points ((fun c => if (c =? 43)%N then 32%N else c) <$> s)))).

(** The pairs of a query string: pieces between [&], empty pieces skipped,
    each cut at its first [=]. *)
Definition urlencoded_parse (query : jsstring) : list (jsstring * jsstring) :=
  (fun piece =>
     let '(name, value) := cut 61 piece in
     (form_decode name, form_decode (default [] value)))
  <$> filter (fun piece => piece <> []) (split 38 query).

(** The characters the URL parser removes before it reads its input: C0
    controls and spaces at both ends, tabs and newlines everywhere. *)
Definition is_c0_or_space (c : N) : bool := (c <=? 32)%N.
Definition is_tab_or_newline (c : N) : bool :=
  ((c =? 9) || (c =? 10) || (c =? 13))%N.

Fixpoint strip_start (s : jsstring) : jsstring :=
  match s with
  | [] => []
  | c :: r => if is_c0_or_space c then strip_start r else s
  end.

Definition url_input (s : jsstring) : jsstring :=
  filter (fun c => is_tab_or_newline c = false)
         (reverse (strip_start (reverse (strip_start (USVString s))))).

(** [new URL(s)] for an absolute [https] URL whose host is followed by a
    path, which is what the program passes: the parser cannot fail past the
    host, the query starts at the first [?] before any [#], the fragment at
    the first [#]. The path is kept as written. *)
Definition new_URL (s : jsstring) : Url :=
  let '(front, fragment) := cut 35 (url_input s) in
  let '(path, query) := cut 63 front in
  mkUrl path (urlencoded_parse (default [] query)) fragment.

(** [url.searchParams.append(name, value)] *)
Definition searchParams_append (name value : jsstring) (u : Url) : Url :=
  mkUrl (target u) (searchParams u ++ [(USVString name, USVString value)])
        (hash u).

(** [url.searchParams.getAll(name)] *)
Definition searchParams_getAll (name : jsstring) (u : Url) : list jsstring :=
  snd <$> filter (fun kv => str_eqb (fst kv) name = true) (searchParams u).

(** A URL written as a template string, with the [URLSearchParams] the
    program appended to it after a [?]. *)
Definition template_url (text : jsstring) (queryParams : list (jsstring * jsstring))
  : Url :=
  mkUrl text queryParams None.

(** [queryParams.append(name, value)] on a bare [URLSearchParams]. *)
Definition append (name value : jsstring)
    (queryParams : list (jsstring * jsstring)) : list (jsstring * jsstring) :=
  queryParams ++ [(USVString name, USVString value)].

Inductive Method := GET | POST | PATCH | DELETE.

(** The argument of [fetch]. The body is the value handed to
    [JSON.stringify]. *)
Record Request := mkRequest {
  method : Method;
  url : Url;
  headers : list (jsstring * jsstring);
  body : option json;
}.

(** A value thrown: an [Error] with its message, or anything else with the
    text [String(error)] gives for it. *)
Inductive Thrown :=
| ThrownError (message : jsstring)
| ThrownOther (as_string : jsstring).

(** [error instanceof Error ? error.message : String(error)] *)
Definition error_text (e : Thrown) : jsstring :=
  match e with
  | ThrownError message => message
  | ThrownOther as_string => as_string
  end.

(** How a promise settles. *)
Inductive Settled (A : Type) :=
| Fulfilled (value : A)
| Rejected (reason : Thrown).
Arguments Fulfilled {A} value.
Arguments Rejected {A} reason.

(** A response: its status, and how [response.json()] settles on its body. *)
Record Response := mkResponse {
  status : N;
  json_body : Settled json;
}.

(** [response.ok] *)
Definition ok (r : Response) : bool :=
  ((200 <=? status r) && (status r <=? 299))%N.

(** What the program runs against: the network behind [fetch], and the
    runtime's [JSON.parse] and URL parser. *)
Record Host := mkHost {
  host_fetch : Request -> Settled Response;
  host_JSON_parse : jsstring -> Settled json;
  host_url_parses : jsstring -> bool;
}.

(** An asynchronous computation: run against a host, it issues requests, in
    order, and settles. *)
Definition Promise (A : Type) : Type := Host -> list Request * Settled A.

Definition resolve {A} (a : A) : Promise A := fun _ => ([], Fulfilled a).

Definition throw {A} (e : Thrown) : Promise A := fun _ => ([], Rejected e).

Definition await {A B} (m : Promise A) (k : A -> Promise B) : Promise B :=
  fun h =>
    match m h with
    | (sent, Fulfilled a) => let '(sent', r) := k a h in (sent ++ sent', r)
    | (sent, Rejected e) => (sent, Rejected e)
    end.

(** [try { body } catch (error) { handler }] *)
Definition try_catch {A} (body : Promise A) (handler : Thrown -> Promise A)
  : Promise A :=
  fun h =>
    match body h with
    | (sent, Fulfilled a) => (sent, Fulfilled a)
    | (sent, Rejected e) => let '(sent', r) := handler e h in (sent ++ sent', r)
    end.

Definition fetch (req : Request) : Promise Response :=
  fun h => ([req], host_fetch h req).

Definition response_json (r : Response) : Promise json :=
  fun _ => ([], json_body r).

Definition JSON_parse (text : jsstring) : Promise json :=
  fun h => ([], host_JSON_parse h text).

#[global] Instance promise_ret : MRet Promise := @resolve.
#[global] Instance promise_bind : MBind Promise :=
  fun A B k m => await m k.

(** The requests a run issued, and how it settled. *)
Definition requests {A} (run : list Request * Settled A) : list Request :=
  fst run.
Definition outcome {A} (run : list Request * Settled A) : Settled A :=
  snd run.

End Web.

Import Web.

(** ** The tool adapters *)

Module Tools.

Definition NOTION_API_VERSION : jsstring := lit "2022-06-28".
Definition NOTION_API_BASE_URL : jsstring := lit "https://api.notion.com/v1".

(** What [tool({ description, parameters, execute })] describes: the
    schema, and the function run on arguments the schema accepted. [Args] is
    the type TypeScript infers for the parsed arguments and [typed] reads a
    parsed value at that type. *)
Record Tool := mkTool {
  Args : Type;
  parameters : Schema;
  typed : json -> option Args;
  execute : Args -> Promise json;
}.

(** The arguments a tool's schema accepts, parsed. *)
Definition accepts (h : Host) (t : Tool) (input : json) : option (Args t) :=
  match parse (host_url_parses h) (parameters t) (Some input) with
  | Some (Some parsed) => typed t parsed
  | _ => None
  end.

(** *** Reading parsed arguments *)

Definition string_arg (k : jsstring) (o : json) : option jsstring :=
  match field k o with Some (JString s) => Some s | _ => None end.

Definition optional_string_arg (k : jsstring) (o : json)
  : option (option jsstring) :=
  match field k o with
  | None => Some None
  | Some (JString s) => Some (Some s)
  | Some _ => None
  end.

Definition optional_integer_arg (k : jsstring) (o : json) : option (option Z) :=
  match field k o with
  | None => Some None
  | Some (JNumber n) => Some (Some (integer_value n))
  | Some _ => None
  end.

Definition optional_boolean_arg (k : jsstring) (o : json)
  : option (option bool) :=
  match field k o with
  | None => Some None
  | Some (JBool b) => Some (Some b)
  | Some _ => None
  end.

Definition value_arg (k : jsstring) (o : json) : option json := field k o.

Definition optional_value_arg (k : jsstring) (o : json) : option (option json) :=
  Some (field k o).

(** *** Values of the program *)

(** [v !== undefined] *)
Definition defined {A} (v : option A) : bool :=
  match v with Some _ => true | None => false end.

(** Truthiness of a value. *)
Definition json_truthy (v : json) : bool :=
  match v with
  | JNull => false
  | JBool b => b
  | JNumber n => negb (integer_value n =? 0)%Z || negb (is_integer n)
  | JString s => truthy s
  | JArray _ | JObject _ => true
  end.

Definition truthy_value (v : option json) : bool :=
  match v with Some x => json_truthy x | None => false end.

(** Truthiness of [number | undefined]. *)
Definition truthy_number (n : option Z) : bool :=
  match n with Some z => negb (z =? 0)%Z | None => false end.

(** A [string | null] inside a template literal. *)
Definition template (s : option jsstring) : jsstring :=
  match s with Some x => x | None => lit "null" end.

(** [o[k] = v] on an object literal under construction. *)
Fixpoint assign (k : jsstring) (v : json) (o : list (jsstring * json))
  : list (jsstring * json) :=
  match o with
  | [] => [(k, v)]
  | (k', v') :: r =>
      if str_eqb k k' then (k, v) :: r else (k', v') :: assign k v r
  end.

(** [if (cond) o[k] = v] *)
Definition assign_if (cond : bool) (k : jsstring) (v : option json)
    (o : list (jsstring * json)) : list (jsstring * json) :=
  match v with
  | Some x => if cond then assign k x o else o
  | None => o
  end.

Definition jstring_opt (s : option jsstring) : option json := JString <$> s.
Definition jinteger_opt (n : option Z) : option json :=
  (fun z => JNumber (Int z)) <$> n.
Definition jbool_opt (b : option bool) : option json := JBool <$> b.

(** The two shapes of an error result. *)
Definition error_only (message : jsstring) : json :=
  JObject [(lit "error", JString message)].

Definition error_details (message : jsstring) (details : json) : json :=
  JObject [(lit "error", JString message); (lit "details", details)].

Definition token_not_configured : jsstring :=
  lit "Notion API integration token is not configured. Please configure it in the Notion Connector settings.".

(** The headers every adapter sends. *)
Definition notion_headers (notionToken : jsstring) : list (jsstring * jsstring) :=
  [(lit "Authorization", lit "Bearer " ++ notionToken);
   (lit "Notion-Version", NOTION_API_VERSION);
   (lit "Content-Type", lit "application/json")].

(** Writing to the console ([console.error], [console.log], [console.warn])
    has no part in what an adapter sends or returns and is left out; what is
    logged is built from the arguments, the response and the caught error
    with operations that do not throw on such values. *)

(** [lib/ai/tools/notion-retrieve-a-block.ts] *)
Module notion_retrieve_a_block.

Record Args := mkArgs {
  block_id : jsstring;
}.

Definition parameters : Schema :=
  zobject [(lit "block_id", zstring)].

Definition typed (o : json) : option Args :=
  block_id ← string_arg (lit "block_id") o;
  Some (mkArgs block_id).

Definition execute (notionToken : option jsstring) (args : Args)
  : Promise json :=
  if negb (truthy_opt notionToken) then mret (error_only token_not_configured)
  else
    let url :=
      template_url (NOTION_API_BASE_URL ++ lit "/blocks/" ++ block_id args) [] in
    try_catch
      (response ← fetch
         (mkRequest GET url (notion_headers (template notionToken))
                   None);
       if negb (ok response) then
         errorData ← response_json response;
         mret (error_details
                 (lit "Notion API request (retrieve-a-block) failed with status "
                  ++ Number_toString (Z.of_N (status response)))
                 errorData)
       else
         blockData ← response_json response;
         mret blockData)
      (fun error =>
         mret (error_details
                 (lit "Failed to execute Notion retrieve-a-block due to a network or unexpected error.")
                 (JString (error_text error)))).

Definition notionRetrieveABlock (notionToken : option jsstring) : Tool :=
  mkTool Args parameters typed (execute notionToken).

End notion_retrieve_a_block.

(** [lib/ai/tools/notion-get-users.ts] *)
Module notion_get_users.

Record Args := mkArgs {
  start_cursor : option jsstring;
  page_size : option Z;
}.

Definition parameters : Schema :=
  zobject [(lit "start_cursor", ZOptional zstring);
           (lit "page_size", ZOptional zpage_size)].

Definition typed (o : json) : option Args :=
  start_cursor ← optional_string_arg (lit "start_cursor") o;
  page_size ← optional_integer_arg (lit "page_size") o;
  Some (mkArgs start_cursor page_size).

Definition execute (notionToken : option jsstring) (args : Args)
  : Promise json :=
  if negb (truthy_opt notionToken) then mret (error_only token_not_configured)
  else
    let queryParams : list (jsstring * jsstring) := [] in
    let queryParams :=
      match start_cursor args with
      | Some c => if truthy c then append (lit "start_cursor") c queryParams
                  else queryParams
      | None => queryParams
      end in
    let queryParams :=
      match page_size args with
      | Some n => append (lit "page_size") (Number_toString n) queryParams
      | None => queryParams
      end in
    let url := template_url (NOTION_API_BASE_URL ++ lit "/users") queryParams in
    try_catch
      (response ← fetch
         (mkRequest GET url (notion_headers (template notionToken))
                   None);
       if negb (ok response) then
         errorData ← response_json response;
         mret (error_details
                 (lit "Notion API request (get-users) failed with status "
                  ++ Number_toString (Z.of_N (status response)))
                 errorData)
       else
         usersData ← response_json response;
         mret usersData)
      (fun error =>
         mret (error_details
                 (lit "Failed to execute Notion get-users due to a network or unexpected error.")
                 (JString (error_text error)))).

Definition notionGetUsers (notionToken : option jsstring) : Tool :=
  mkTool Args parameters typed (execute notionToken).

End notion_get_users.

(** [lib/ai/tools/notion-get-user.ts] *)
Module notion_get_user.

Record Args := mkArgs {
  user_id : jsstring;
}.

Definition parameters : Schema :=
  zobject [(lit "user_id", zstring)].

Definition typed (o : json) : option Args :=
  user_id ← string_arg (lit "user_id") o;
  Some (mkArgs user_id).

Definition execute (notionToken : option jsstring) (args : Args)
  : Promise json :=
  if negb (truthy_opt notionToken) then mret (error_only token_not_configured)
  else
    try_catch
      (response ← fetch
         (mkRequest GET
                   (template_url (NOTION_API_BASE_URL ++ lit "/users/" ++ user_id args) [])
                   (notion_headers (template notionToken)) None);
       if negb (ok response) then
         errorData ← response_json response;
         mret (error_details
                 (lit "Notion API request failed with status "
                  ++ Number_toString (Z.of_N (status response)))
                 errorData)
       else
         userData ← response_json response;
         mret userData)
      (fun error =>
         mret (error_details
                 (lit "Failed to execute Notion get user due to a network or unexpected error.")
                 (JString (error_text error)))).

Definition notionGetUser (notionToken : option jsstring) : Tool :=
  mkTool Args parameters typed (execute notionToken).

End notion_get_user.

(** [notionGetSelf], in [lib/ai/tools/notion-get-self.ts] *)
Module notion_get_self.

Definition Args : Type := unit.

Definition parameters : Schema :=
  zobject [].

Definition typed (o : json) : option Args :=
  match o with JObject _ => Some tt | _ => None end.

Definition execute (notionToken : option jsstring) (args : Args)
  : Promise json :=
  if negb (truthy_opt notionToken) then mret (error_only token_not_configured)
  else
    try_catch
      (response ← fetch
         (mkRequest GET
                   (template_url (NOTION_API_BASE_URL ++ lit "/users/me") [])
                   (notion_headers (template notionToken)) None);
       if negb (ok response) then
         errorData ← response_json response;
         mret (error_details
                 (lit "Notion API request failed with status "
                  ++ Number_toString (Z.of_N (status response)))
                 errorData)
       else
         selfData ← response_json response;
         mret selfData)
      (fun error =>
         mret (error_details
                 (lit "Failed to execute Notion get-self due to a network or unexpected error.")
                 (JString (error_text error)))).

Definition notionGetSelf (notionToken : option jsstring) : Tool :=
  mkTool Args parameters typed (execute notionToken).

End notion_get_self.

(** [notionRetrieveADatabase], in [lib/ai/tools/notion-get-self.ts] *)
Module notion_retrieve_a_database.

Record Args := mkArgs {
  database_id : jsstring;
}.

Definition parameters : Schema :=
  zobject [(lit "database_id", zstring)].

Definition typed (o : json) : option Args :=
  database_id ← string_arg (lit "database_id") o;
  Some (mkArgs database_id).

Definition execute (notionToken : option jsstring) (args : Args)
  : Promise json :=
  if negb (truthy_opt notionToken) then mret (error_only token_not_configured)
  else
    let url :=
      template_url (NOTION_API_BASE_URL ++ lit "/databases/" ++ database_id args)
        [] in
    try_catch
      (response ← fetch
         (mkRequest GET url (notion_headers (template notionToken))
                   None);
       if negb (ok response) then
         errorData ← response_json response;
         mret (error_details
                 (lit "Notion API request failed with status "
                  ++ Number_toString (Z.of_N (status response)))
                 errorData)
       else
         databaseData ← response_json response;
         mret databaseData)
      (fun error =>
         mret (error_details
                 (lit "Failed to execute Notion retrieve database due to a network or unexpected error.")
                 (JString (error_text error)))).

Definition notionRetrieveADatabase (notionToken : option jsstring) : Tool :=
  mkTool Args parameters typed (execute notionToken).

End notion_retrieve_a_database.

(** [notionDeleteABlock], in [lib/ai/tools/notion-delete-a-block.ts] *)
Module notion_delete_a_block.

Record Args := mkArgs {
  block_id : jsstring;
}.

Definition parameters : Schema :=
  zobject [(lit "block_id", zstring)].

Definition typed (o : json) : option Args :=
  block_id ← string_arg (lit "block_id") o;
  Some (mkArgs block_id).

Definition execute (notionToken : option jsstring) (args : Args)
  : Promise json :=
  if negb (truthy_opt notionToken) then mret (error_only token_not_configured)
  else
    let url :=
      template_url (NOTION_API_BASE_URL ++ lit "/blocks/" ++ block_id args) [] in
    try_catch
      (response ← fetch
         (mkRequest DELETE url (notion_headers (template notionToken))
                   None);
       if negb (ok response) then
         errorData ← response_json response;
         mret (error_details
                 (lit "Notion API request (delete-a-block) failed with status "
                  ++ Number_toString (Z.of_N (status response)))
                 errorData)
       else
         deletedBlockData ← response_json response;
         mret deletedBlockData)
      (fun error =>
         mret (error_details
                 (lit "Failed to execute Notion delete-a-block due to a network or unexpected error.")
                 (JString (error_text error)))).

Definition notionDeleteABlock (notionToken : option jsstring) : Tool :=
  mkTool Args parameters typed (execute notionToken).

End notion_delete_a_block.

(** [notionCreateAComment], in [lib/ai/tools/notion-delete-a-block.ts] *)
Module notion_create_a_comment.

Record Args := mkArgs {
  parent : json;
  rich_text : json;
}.

Definition parameters : Schema :=
  zobject
    [(lit "parent", zobject [(lit "page_id", zstring)]);
     (lit "rich_text",
      ZArray (Some 1%nat) None
        (zobject [(lit "text", zobject [(lit "content", zstring)])]))].

Definition typed (o : json) : option Args :=
  parent ← value_arg (lit "parent") o;
  rich_text ← value_arg (lit "rich_text") o;
  Some (mkArgs parent rich_text).

Definition execute (notionToken : option jsstring) (args : Args)
  : Promise json :=
  if negb (truthy_opt notionToken) then mret (error_only token_not_configured)
  else
    let requestBody :=
      [(lit "parent", parent args); (lit "rich_text", rich_text args)] in
    let url := template_url (NOTION_API_BASE_URL ++ lit "/comments") [] in
    try_catch
      (response ← fetch
         (mkRequest POST url (notion_headers (template notionToken))
                   (Some (JObject requestBody)));
       if negb (ok response) then
         errorData ← response_json response;
         mret (error_details
                 (lit "Notion API request failed with status "
                  ++ Number_toString (Z.of_N (status response)))
                 errorData)
       else
         commentData ← response_json response;
         mret commentData)
      (fun error =>
         mret (error_details
                 (lit "Failed to execute Notion create comment due to a network or unexpected error.")
                 (JString (error_text error)))).

Definition notionCreateAComment (notionToken : option jsstring) : Tool :=
  mkTool Args parameters typed (execute notionToken).

End notion_create_a_comment.

(** [lib/ai/tools/notion-update-a-block.ts] *)
Module notion_update_a_block.

Definition LinkObjectSchema : Schema :=
  zstrict [(lit "url", ZString None true)].

Definition TextObjectSchema : Schema :=
  zstrict [(lit "content", zstring_max 2000);
           (lit "link", ZNullable (ZOptional LinkObjectSchema))].

Definition RichTextObjectSchema : Schema :=
  zstrict [(lit "text", TextObjectSchema);
           (lit "type",
            ZDefault (ZOptional (ZLiteral (lit "text"))) (JString (lit "text")))].

Definition RichTextArraySchema : Schema :=
  ZArray (Some 1%nat) (Some 100%nat) RichTextObjectSchema.

Definition ParagraphUpdateSchema : Schema :=
  zstrict [(lit "rich_text", RichTextArraySchema)].
Definition HeadingUpdateSchema : Schema :=
  zstrict [(lit "rich_text", RichTextArraySchema)].
Definition BulletedListItemUpdateSchema : Schema :=
  zstrict [(lit "rich_text", RichTextArraySchema)].
Definition NumberedListItemUpdateSchema : Schema :=
  zstrict [(lit "rich_text", RichTextArraySchema)].
Definition ToggleUpdateSchema : Schema :=
  zstrict [(lit "rich_text", RichTextArraySchema)].
Definition QuoteUpdateSchema : Schema :=
  zstrict [(lit "rich_text", RichTextArraySchema)].
Definition CalloutUpdateSchema : Schema :=
  zstrict [(lit "rich_text", RichTextArraySchema)].

Definition ToDoUpdateSchema : Schema :=
  ZRefine
    (zstrict [(lit "rich_text", ZOptional RichTextArraySchema);
              (lit "checked", ZOptional ZBoolean)])
    (fun data =>
       defined (field (lit "rich_text") data)
       || defined (field (lit "checked") data)).

(** [const { block_id, archived, ...blockSpecificUpdates } = data] *)
Definition rest_of (data : json) : list (jsstring * json) :=
  match data with
  | JObject members =>
      filter (fun kv => str_eqb (fst kv) (lit "block_id") = false
                        /\ str_eqb (fst kv) (lit "archived") = false) members
  | _ => []
  end.

Definition UpdateBlockParametersSchema : Schema :=
  ZRefine
    (zstrict [(lit "block_id", zstring);
              (lit "archived", ZOptional ZBoolean);
              (lit "paragraph", ZOptional ParagraphUpdateSchema);
              (lit "heading_1", ZOptional HeadingUpdateSchema);
              (lit "heading_2", ZOptional HeadingUpdateSchema);
              (lit "heading_3", ZOptional HeadingUpdateSchema);
              (lit "bulleted_list_item", ZOptional BulletedListItemUpdateSchema);
              (lit "numbered_list_item", ZOptional NumberedListItemUpdateSchema);
              (lit "to_do", ZOptional ToDoUpdateSchema);
              (lit "toggle", ZOptional ToggleUpdateSchema);
              (lit "quote", ZOptional QuoteUpdateSchema);
              (lit "callout", ZOptional CalloutUpdateSchema)])
    (fun data =>
       let updateKeys := fst <$> rest_of data in
       if negb (defined (field (lit "archived") data))
          && (length updateKeys =? 0)%nat
       then false
       else if (1 <? length updateKeys)%nat then false
       else true).

Record Args := mkArgs {
  block_id : jsstring;
  archived : option bool;
  blockSpecificUpdates : list (jsstring * json);
}.

Definition parameters : Schema := UpdateBlockParametersSchema.

Definition typed (o : json) : option Args :=
  block_id ← string_arg (lit "block_id") o;
  archived ← optional_boolean_arg (lit "archived") o;
  Some (mkArgs block_id archived (rest_of o)).

Definition execute (notionToken : option jsstring) (args : Args)
  : Promise json :=
  if negb (truthy_opt notionToken) then mret (error_only token_not_configured)
  else
    let requestBody : list (jsstring * json) := [] in
    let requestBody :=
      assign_if true (lit "archived") (jbool_opt (archived args)) requestBody in
    let requestBody :=
      match blockSpecificUpdates args with
      | (key, value) :: _ => assign key value requestBody
      | [] => requestBody
      end in
    match requestBody with
    | [] =>
        mret (error_only
                (lit "No update operation specified (archived or block content)."))
    | _ :: _ =>
        let url :=
          template_url (NOTION_API_BASE_URL ++ lit "/blocks/" ++ block_id args)
            [] in
        try_catch
          (response ← fetch
             (mkRequest PATCH url (notion_headers (template notionToken))
                       (Some (JObject requestBody)));
           if negb (ok response) then
             errorData ← response_json response;
             mret (error_details
                     (lit "Notion API request (update-a-block) failed with status "
                      ++ Number_toString (Z.of_N (status response)))
                     errorData)
           else
             updatedBlockData ← response_json response;
             mret updatedBlockData)
          (fun error =>
             mret (error_details
                     (lit "Failed to execute Notion update-a-block due to a network or unexpected error.")
                     (JString (error_text error))))
    end.

Definition notionUpdateABlock (notionToken : option jsstring) : Tool :=
  mkTool Args parameters typed (execute notionToken).

End notion_update_a_block.

(** [lib/ai/tools/notion-patch-page.ts] *)
Module notion_patch_page.

Record Args := mkArgs {
  page_id : jsstring;
  properties : option json;
  archived : option bool;
  icon : option json;
  cover : option json;
}.

Definition parameters : Schema :=
  zobject
    [(lit "page_id", zstring);
     (lit "properties", ZOptional (ZRecord ZAny));
     (lit "archived", ZOptional ZBoolean);
     (lit "icon",
      ZOptional
        (ZUnion
           [zobject [(lit "type", ZLiteral (lit "emoji"));
                     (lit "emoji", zstring)];
            zobject [(lit "type", ZLiteral (lit "external"));
                     (lit "external", zobject [(lit "url", zstring)])]]));
     (lit "cover",
      ZOptional
        (zobject [(lit "type", ZLiteral (lit "external"));
                  (lit "external", zobject [(lit "url", zstring)])]))].

Definition typed (o : json) : option Args :=
  page_id ← string_arg (lit "page_id") o;
  properties ← optional_value_arg (lit "properties") o;
  archived ← optional_boolean_arg (lit "archived") o;
  icon ← optional_value_arg (lit "icon") o;
  cover ← optional_value_arg (lit "cover") o;
  Some (mkArgs page_id properties archived icon cover).

Definition execute (notionToken : option jsstring) (args : Args)
  : Promise json :=
  if negb (truthy_opt notionToken) then mret (error_only token_not_configured)
  else
    let url :=
      template_url (NOTION_API_BASE_URL ++ lit "/pages/" ++ page_id args) [] in
    let requestBody : list (jsstring * json) := [] in
    let requestBody :=
      assign_if true (lit "properties") (properties args) requestBody in
    let requestBody :=
      assign_if true (lit "archived") (jbool_opt (archived args)) requestBody in
    let requestBody := assign_if true (lit "icon") (icon args) requestBody in
    let requestBody := assign_if true (lit "cover") (cover args) requestBody in
    try_catch
      (response ← fetch
         (mkRequest PATCH url (notion_headers (template notionToken))
                   (Some (JObject requestBody)));
       if negb (ok response) then
         errorData ← response_json response;
         mret (error_details
                 (lit "Notion API request (patch-page) failed with status "
                  ++ Number_toString (Z.of_N (status response)))
                 errorData)
       else
         updatedPageData ← response_json response;
         mret updatedPageData)
      (fun error =>
         mret (error_details
                 (lit "Failed to execute Notion patch-page due to a network or unexpected error.")
                 (JString (error_text error)))).

Definition notionPatchPage (notionToken : option jsstring) : Tool :=
  mkTool Args parameters typed (execute notionToken).

End notion_patch_page.

(** [lib/ai/tools/notion-create-a-database.ts] *)
Module notion_create_a_database.

Record Args := mkArgs {
  parent : json;
  propertiesJson : jsstring;
  title : option json;
}.

Definition parameters : Schema :=
  zobject
    [(lit "parent",
      zobject [(lit "page_id", zstring);
               (lit "type", ZLiteral (lit "page_id"))]);
     (lit "propertiesJson", zstring);
     (lit "title",
      ZOptional
        (ZArray None (Some 100%nat)
           (zobject
              [(lit "type", ZOptional (ZLiteral (lit "text")));
               (lit "text",
                zobject
                  [(lit "content", zstring_max 2000);
                   (lit "link",
                    ZOptional (ZNullable (zobject [(lit "url", zstring)])))])])))].

Definition typed (o : json) : option Args :=
  parent ← value_arg (lit "parent") o;
  propertiesJson ← string_arg (lit "propertiesJson") o;
  title ← optional_value_arg (lit "title") o;
  Some (mkArgs parent propertiesJson title).

(** The message names the argument between double quotes (code unit 34). *)
Definition invalid_properties_json : jsstring :=
  lit "Invalid JSON string provided for " ++ [34%N] ++ lit "propertiesJson"
  ++ [34%N] ++ lit ".".

Definition execute (notionToken : option jsstring) (args : Args)
  : Promise json :=
  if negb (truthy_opt notionToken) then mret (error_only token_not_configured)
  else
    (* The first [try] either yields the parsed properties or returns. *)
    parsed ← try_catch
      (parsedProperties ← JSON_parse (propertiesJson args);
       mret (inl parsedProperties))
      (fun e =>
         mret (inr (error_details invalid_properties_json
                      (JString (error_text e)))));
    match parsed with
    | inr returned => mret returned
    | inl parsedProperties =>
        let requestBody :=
          [(lit "parent", parent args); (lit "properties", parsedProperties)] in
        let requestBody :=
          assign_if (truthy_value (title args)) (lit "title") (title args)
            requestBody in
        try_catch
          (response ← fetch
             (mkRequest POST
                       (template_url (NOTION_API_BASE_URL ++ lit "/databases") [])
                       (notion_headers (template notionToken)) (Some (JObject requestBody)));
           if negb (ok response) then
             errorData ← response_json response;
             mret (error_details
                     (lit "Notion API request failed with status "
                      ++ Number_toString (Z.of_N (status response)))
                     errorData)
           else
             databaseData ← response_json response;
             mret databaseData)
          (fun error =>
             mret (error_details
                     (lit "Failed to execute Notion create a database due to a network or unexpected error.")
                     (JString (error_text error))))
    end.

Definition notionCreateADatabase (notionToken : option jsstring) : Tool :=
  mkTool Args parameters typed (execute notionToken).

End notion_create_a_database.

(** [lib/ai/tools/notion-post-database-query.ts] *)
Module notion_post_database_query.

Definition TextFilterConditionsSchema : Schema :=
  zstrict [(lit "equals", ZOptional zstring);
           (lit "does_not_equal", ZOptional zstring);
           (lit "contains", ZOptional zstring);
           (lit "does_not_contain", ZOptional zstring);
           (lit "starts_with", ZOptional zstring);
           (lit "ends_with", ZOptional zstring);
           (lit "is_empty", ZOptional ZBoolean);
           (lit "is_not_empty", ZOptional ZBoolean)].

Definition znumber : Schema := ZNumber false None.

Definition NumberFilterConditionsSchema : Schema :=
  zstrict [(lit "equals", ZOptional znumber);
           (lit "does_not_equal", ZOptional znumber);
           (lit "greater_than", ZOptional znumber);
           (lit "less_than", ZOptional znumber);
           (lit "greater_than_or_equal_to", ZOptional znumber);
           (lit "less_than_or_equal_to", ZOptional znumber);
           (lit "is_empty", ZOptional ZBoolean);
           (lit "is_not_empty", ZOptional ZBoolean)].

Definition CheckboxFilterConditionsSchema : Schema :=
  zstrict [(lit "equals", ZOptional ZBoolean);
           (lit "does_not_equal", ZOptional ZBoolean)].

Definition SelectFilterConditionsSchema : Schema :=
  zstrict [(lit "equals", ZOptional zstring);
           (lit "does_not_equal", ZOptional zstring);
           (lit "is_empty", ZOptional ZBoolean);
           (lit "is_not_empty", ZOptional ZBoolean)].

Definition MultiSelectFilterConditionsSchema : Schema :=
  zstrict [(lit "contains", ZOptional zstring);
           (lit "does_not_contain", ZOptional zstring);
           (lit "is_empty", ZOptional ZBoolean);
           (lit "is_not_empty", ZOptional ZBoolean)].

Definition DateFilterConditionsSchema : Schema :=
  zstrict [(lit "equals", ZOptional zstring);
           (lit "before", ZOptional zstring);
           (lit "after", ZOptional zstring);
           (lit "on_or_before", ZOptional zstring);
           (lit "on_or_after", ZOptional zstring);
           (lit "is_empty", ZOptional ZBoolean);
           (lit "is_not_empty", ZOptional ZBoolean);
           (lit "past_week", ZOptional (zobject []));
           (lit "past_month", ZOptional (zobject []));
           (lit "past_year", ZOptional (zobject []));
           (lit "this_week", ZOptional (zobject []));
           (lit "next_week", ZOptional (zobject []));
           (lit "next_month", ZOptional (zobject []));
           (lit "next_year", ZOptional (zobject []))].

Definition SinglePropertyFilterSchema : Schema :=
  zstrict [(lit "property", zstring);
           (lit "title", ZOptional TextFilterConditionsSchema);
           (lit "rich_text", ZOptional TextFilterConditionsSchema);
           (lit "url", ZOptional TextFilterConditionsSchema);
           (lit "email", ZOptional TextFilterConditionsSchema);
           (lit "phone_number", ZOptional TextFilterConditionsSchema);
           (lit "number", ZOptional NumberFilterConditionsSchema);
           (lit "checkbox", ZOptional CheckboxFilterConditionsSchema);
           (lit "select", ZOptional SelectFilterConditionsSchema);
           (lit "multi_select", ZOptional MultiSelectFilterConditionsSchema);
           (lit "status", ZOptional SelectFilterConditionsSchema);
           (lit "date", ZOptional DateFilterConditionsSchema);
           (lit "created_time", ZOptional DateFilterConditionsSchema);
           (lit "last_edited_time", ZOptional DateFilterConditionsSchema)].

Definition FilterObjectSchema : Schema :=
  ZRefine
    (zobject
       [(lit "or",
         ZOptional (ZArray None (Some 100%nat) SinglePropertyFilterSchema));
        (lit "and",
         ZOptional (ZArray None (Some 100%nat) SinglePropertyFilterSchema))])
    (fun data =>
       negb (truthy_value (field (lit "or") data)
             && truthy_value (field (lit "and") data))).

Definition SortSchema : Schema :=
  zstrict [(lit "property", zstring);
           (lit "direction",
            ZEnum [lit "ascending"; lit "descending"])].

Record Args := mkArgs {
  database_id : jsstring;
  filter_properties : option json;
  filter : option json;
  sorts : option json;
  start_cursor : option jsstring;
  page_size : option Z;
  archived : option bool;
  in_trash : option bool;
}.

Definition parameters : Schema :=
  zobject
    [(lit "database_id", zstring);
     (lit "filter_properties", ZOptional (zarray zstring));
     (lit "filter", ZOptional FilterObjectSchema);
     (lit "sorts", ZOptional (zarray SortSchema));
     (lit "start_cursor", ZOptional zstring);
     (lit "page_size", ZOptional zpage_size);
     (lit "archived", ZOptional ZBoolean);
     (lit "in_trash", ZOptional ZBoolean)].

Definition typed (o : json) : option Args :=
  database_id ← string_arg (lit "database_id") o;
  filter_properties ← optional_value_arg (lit "filter_properties") o;
  filter ← optional_value_arg (lit "filter") o;
  sorts ← optional_value_arg (lit "sorts") o;
  start_cursor ← optional_string_arg (lit "start_cursor") o;
  page_size ← optional_integer_arg (lit "page_size") o;
  archived ← optional_boolean_arg (lit "archived") o;
  in_trash ← optional_boolean_arg (lit "in_trash") o;
  Some (mkArgs database_id filter_properties filter sorts start_cursor
          page_size archived in_trash).

(** [filter_properties] only decides whether a warning is logged. *)
Definition execute (notionToken : option jsstring) (args : Args)
  : Promise json :=
  if negb (truthy_opt notionToken) then mret (error_only token_not_configured)
  else
    let url :=
      template_url
        (NOTION_API_BASE_URL ++ lit "/databases/" ++ database_id args
         ++ lit "/query") [] in
    let requestBody : list (jsstring * json) := [] in
    let requestBody :=
      assign_if (truthy_value (filter args)) (lit "filter") (filter args)
        requestBody in
    let requestBody :=
      assign_if (truthy_value (sorts args)) (lit "sorts") (sorts args)
        requestBody in
    let requestBody :=
      assign_if (truthy_opt (start_cursor args)) (lit "start_cursor")
        (jstring_opt (start_cursor args)) requestBody in
    let requestBody :=
      assign_if true (lit "page_size") (jinteger_opt (page_size args))
        requestBody in
    let requestBody :=
      assign_if true (lit "archived") (jbool_opt (archived args)) requestBody in
    let requestBody :=
      assign_if true (lit "in_trash") (jbool_opt (in_trash args)) requestBody in
    try_catch
      (response ← fetch
         (mkRequest POST url (notion_headers (template notionToken))
                   (Some (JObject requestBody)));
       if negb (ok response) then
         errorData ← response_json response;
         mret (error_details
                 (lit "Notion API request (post-database-query) failed with status "
                  ++ Number_toString (Z.of_N (status response)))
                 errorData)
       else
         queryData ← response_json response;
         mret queryData)
      (fun error =>
         mret (error_details
                 (lit "Failed to execute Notion post-database-query due to a network or unexpected error.")
                 (JString (error_text error)))).

Definition notionPostDatabaseQuery (notionToken : option jsstring) : Tool :=
  mkTool Args parameters typed (execute notionToken).

End notion_post_database_query.

(** [notionPatchBlockChildren] *)
Module notion_patch_block_children.

Definition LinkObjectSchema : Schema :=
  zstrict [(lit "url", zstring)].

Definition TextObjectSchema : Schema :=
  zstrict [(lit "content", zstring_max 2000);
           (lit "link", ZNullable (ZOptional LinkObjectSchema))].

Definition RichTextObjectSchema : Schema :=
  zstrict [(lit "text", TextObjectSchema);
           (lit "type",
            ZDefault (ZOptional (ZLiteral (lit "text"))) (JString (lit "text")))].

Definition ParagraphBlockSchema : Schema :=
  zstrict [(lit "rich_text",
            ZArray (Some 1%nat) (Some 100%nat) RichTextObjectSchema)].

Definition BulletedListItemBlockSchema : Schema :=
  zstrict [(lit "rich_text",
            ZArray (Some 1%nat) (Some 100%nat) RichTextObjectSchema)].

Definition ChildBlockObjectSchema : Schema :=
  ZRefine
    (zstrict [(lit "type",
               ZEnum [lit "paragraph"; lit "bulleted_list_item"]);
              (lit "paragraph", ZOptional ParagraphBlockSchema);
              (lit "bulleted_list_item",
               ZOptional BulletedListItemBlockSchema)])
    (fun data =>
       match field (lit "type") data with
       | Some (JString type) =>
           if str_eqb type (lit "paragraph") then
             defined (field (lit "paragraph") data)
             && negb (defined (field (lit "bulleted_list_item") data))
           else if str_eqb type (lit "bulleted_list_item") then
             defined (field (lit "bulleted_list_item") data)
             && negb (defined (field (lit "paragraph") data))
           else false
       | _ => false
       end).

Record Args := mkArgs {
  block_id : jsstring;
  children : json;
  after : option jsstring;
}.

Definition parameters : Schema :=
  zobject
    [(lit "block_id", zstring);
     (lit "children", ZArray (Some 1%nat) None ChildBlockObjectSchema);
     (lit "after", ZOptional zstring)].

Definition typed (o : json) : option Args :=
  block_id ← string_arg (lit "block_id") o;
  children ← value_arg (lit "children") o;
  after ← optional_string_arg (lit "after") o;
  Some (mkArgs block_id children after).

Definition execute (notionToken : option jsstring) (args : Args)
  : Promise json :=
  if negb (truthy_opt notionToken) then mret (error_only token_not_configured)
  else
    let requestBody := [(lit "children", children args)] in
    let requestBody :=
      assign_if (truthy_opt (after args)) (lit "after")
        (jstring_opt (after args)) requestBody in
    let url :=
      template_url
        (NOTION_API_BASE_URL ++ lit "/blocks/" ++ block_id args
         ++ lit "/children") [] in
    try_catch
      (response ← fetch
         (mkRequest PATCH url (notion_headers (template notionToken))
                   (Some (JObject requestBody)));
       if negb (ok response) then
         errorData ← response_json response;
         mret (error_details
                 (lit "Notion API request (patch-block-children) failed with status "
                  ++ Number_toString (Z.of_N (status response)))
                 errorData)
       else
         responseData ← response_json response;
         mret responseData)
      (fun error =>
         mret (error_details
                 (lit "Failed to execute Notion patch-block-children due to a network or unexpected error.")
                 (JString (error_text error)))).

Definition notionPatchBlockChildren (notionToken : option jsstring) : Tool :=
  mkTool Args parameters typed (execute notionToken).

End notion_patch_block_children.

(** [notionRetrieveAPage] *)
Module notion_retrieve_a_page.

Record Args := mkArgs {
  page_id : jsstring;
  filter_properties : option jsstring;
}.

Definition parameters : Schema :=
  zobject [(lit "page_id", zstring);
           (lit "filter_properties", ZOptional zstring)].

Definition typed (o : json) : option Args :=
  page_id ← string_arg (lit "page_id") o;
  filter_properties ← optional_string_arg (lit "filter_properties") o;
  Some (mkArgs page_id filter_properties).

Definition execute (notionToken : option jsstring) (args : Args)
  : Promise json :=
  if negb (truthy_opt notionToken) then mret (error_only token_not_configured)
  else
    let urlString := NOTION_API_BASE_URL ++ lit "/pages/" ++ page_id args in
    let url := new_URL urlString in
    let url :=
      match filter_properties args with
      | Some filter_properties =>
          if truthy filter_properties then
            let propertiesToFilter := split 44 filter_properties in
            foldl
              (fun url propId =>
                 searchParams_append (lit "filter_properties") (trim propId) url)
              url propertiesToFilter
          else url
      | None => url
      end in
    try_catch
      (response ← fetch
         (mkRequest GET url (notion_headers (template notionToken))
                   None);
       if negb (ok response) then
         errorData ← response_json response;
         mret (error_details
                 (lit "Notion API request (retrieve-a-page) failed with status "
                  ++ Number_toString (Z.of_N (status response)))
                 errorData)
       else
         pageData ← response_json response;
         mret pageData)
      (fun error =>
         mret (error_details
                 (lit "Failed to execute Notion retrieve-a-page due to a network or unexpected error.")
                 (JString (error_text error)))).

Definition notionRetrieveAPage (notionToken : option jsstring) : Tool :=
  mkTool Args parameters typed (execute notionToken).

End notion_retrieve_a_page.

(** [notionGetBlockChildren] *)
Module notion_get_block_children.

Record Args := mkArgs {
  block_id : jsstring;
  start_cursor : option jsstring;
  page_size : option Z;
}.

Definition parameters : Schema :=
  zobject [(lit "block_id", zstring);
           (lit "start_cursor", ZOptional zstring);
           (lit "page_size", ZOptional zpage_size)].

Definition typed (o : json) : option Args :=
  block_id ← string_arg (lit "block_id") o;
  start_cursor ← optional_string_arg (lit "start_cursor") o;
  page_size ← optional_integer_arg (lit "page_size") o;
  Some (mkArgs block_id start_cursor page_size).

Definition execute (notionToken : option jsstring) (args : Args)
  : Promise json :=
  if negb (truthy_opt notionToken) then mret (error_only token_not_configured)
  else
    let queryParams : list (jsstring * jsstring) := [] in
    let queryParams :=
      match start_cursor args with
      | Some c => if truthy c then append (lit "start_cursor") c queryParams
                  else queryParams
      | None => queryParams
      end in
    let queryParams :=
      match page_size args with
      | Some n => append (lit "page_size") (Number_toString n) queryParams
      | None => queryParams
      end in
    let url :=
      template_url
        (NOTION_API_BASE_URL ++ lit "/blocks/" ++ block_id args
         ++ lit "/children") queryParams in
    try_catch
      (response ← fetch
         (mkRequest GET url (notion_headers (template notionToken))
                   None);
       if negb (ok response) then
         errorData ← response_json response;
         mret (error_details
                 (lit "Notion API request (get-block-children) failed with status "
                  ++ Number_toString (Z.of_N (status response)))
                 errorData)
       else
         blockChildrenData ← response_json response;
         mret blockChildrenData)
      (fun error =>
         mret (error_details
                 (lit "Failed to execute Notion get-block-children due to a network or unexpected error.")
                 (JString (error_text error)))).

Definition notionGetBlockChildren (notionToken : option jsstring) : Tool :=
  mkTool Args parameters typed (execute notionToken).

End notion_get_block_children.

(** [notionRetrieveAComment] *)
Module notion_retrieve_a_comment.

Record Args := mkArgs {
  block_id : jsstring;
  page_size : option Z;
  start_cursor : option jsstring;
}.

Definition parameters : Schema :=
  zobject [(lit "block_id", zstring);
           (lit "page_size", ZOptional zpage_size);
           (lit "start_cursor", ZOptional zstring)].

Definition typed (o : json) : option Args :=
  block_id ← string_arg (lit "block_id") o;
  page_size ← optional_integer_arg (lit "page_size") o;
  start_cursor ← optional_string_arg (lit "start_cursor") o;
  Some (mkArgs block_id page_size start_cursor).

Definition execute (notionToken : option jsstring) (args : Args)
  : Promise json :=
  if negb (truthy_opt notionToken) then mret (error_only token_not_configured)
  else
    let queryParams : list (jsstring * jsstring) := [] in
    let queryParams := append (lit "block_id") (block_id args) queryParams in
    let queryParams :=
      match page_size args with
      | Some n => if truthy_number (Some n)
                  then append (lit "page_size") (Number_toString n) queryParams
                  else queryParams
      | None => queryParams
      end in
    let queryParams :=
      match start_cursor args with
      | Some c => if truthy c then append (lit "start_cursor") c queryParams
                  else queryParams
      | None => queryParams
      end in
    let url := template_url (NOTION_API_BASE_URL ++ lit "/comments") queryParams in
    try_catch
      (response ← fetch
         (mkRequest GET url (notion_headers (template notionToken))
                   None);
       if negb (ok response) then
         errorData ← response_json response;
         mret (error_details
                 (lit "Notion API request failed with status "
                  ++ Number_toString (Z.of_N (status response)))
                 errorData)
       else
         commentData ← response_json response;
         mret commentData)
      (fun error =>
         mret (error_details
                 (lit "Failed to execute Notion retrieve comment due to a network or unexpected error.")
                 (JString (error_text error)))).

Definition notionRetrieveAComment (notionToken : option jsstring) : Tool :=
  mkTool Args parameters typed (execute notionToken).

End notion_retrieve_a_comment.

(** [notionPostPage] *)
Module notion_post_page.

Record Args := mkArgs {
  parent : json;
  properties : json;
  children : option json;
  icon : option json;
  cover : option json;
}.

Definition parameters : Schema :=
  zobject
    [(lit "parent", zobject [(lit "page_id", zstring)]);
     (lit "properties",
      zobject
        [(lit "title",
          ZArray None (Some 100%nat)
            (zobject [(lit "text", zobject [(lit "content", zstring_max 2000)])]))]);
     (lit "children",
      ZOptional
        (zarray
           (zobject
              [(lit "type", ZEnum [lit "paragraph"; lit "bulleted_list_item"]);
               (lit "paragraph",
                ZOptional
                  (zobject
                     [(lit "rich_text",
                       zarray
                       (zobject
                          [(lit "type", ZOptional (ZLiteral (lit "text")));
                           (lit "text",
                            zobject
                              [(lit "content", zstring);
                               (lit "link",
                                ZOptional
                                  (ZNullable (zobject [(lit "url", zstring)])))])]))]));
               (lit "bulleted_list_item",
                ZOptional
                  (zobject
                     [(lit "rich_text",
                       zarray
                       (zobject
                          [(lit "type", ZOptional (ZLiteral (lit "text")));
                           (lit "text",
                            zobject
                              [(lit "content", zstring);
                               (lit "link",
                                ZOptional
                                  (ZNullable (zobject [(lit "url", zstring)])))])]))]))])));
     (lit "icon",
      ZOptional
        (ZUnion
           [zobject [(lit "type", ZLiteral (lit "emoji"));
                     (lit "emoji", zstring)];
            zobject [(lit "type", ZLiteral (lit "external"));
                     (lit "external", zobject [(lit "url", zstring)])]]));
     (lit "cover",
      ZOptional
        (zobject [(lit "type", ZLiteral (lit "external"));
                  (lit "external", zobject [(lit "url", zstring)])]))].

Definition typed (o : json) : option Args :=
  parent ← value_arg (lit "parent") o;
  properties ← value_arg (lit "properties") o;
  children ← optional_value_arg (lit "children") o;
  icon ← optional_value_arg (lit "icon") o;
  cover ← optional_value_arg (lit "cover") o;
  Some (mkArgs parent properties children icon cover).

Definition execute (notionToken : option jsstring) (args : Args)
  : Promise json :=
  if negb (truthy_opt notionToken) then mret (error_only token_not_configured)
  else
    let requestBody :=
      [(lit "parent", parent args); (lit "properties", properties args)] in
    let requestBody :=
      assign_if (truthy_value (children args)) (lit "children") (children args)
        requestBody in
    let requestBody :=
      assign_if (truthy_value (icon args)) (lit "icon") (icon args)
        requestBody in
    let requestBody :=
      assign_if (truthy_value (cover args)) (lit "cover") (cover args)
        requestBody in
    try_catch
      (response ← fetch
         (mkRequest POST
                   (template_url (NOTION_API_BASE_URL ++ lit "/pages") [])
                   (notion_headers (template notionToken)) (Some (JObject requestBody)));
       if negb (ok response) then
         errorData ← response_json response;
         mret (error_details
                 (lit "Notion API request failed with status "
                  ++ Number_toString (Z.of_N (status response)))
                 errorData)
       else
         pageData ← response_json response;
         mret pageData)
      (fun error =>
         mret (error_details
                 (lit "Failed to execute Notion create page due to a network or unexpected error.")
                 (JString (error_text error)))).

Definition notionPostPage (notionToken : option jsstring) : Tool :=
  mkTool Args parameters typed (execute notionToken).

End notion_post_page.

(** [notionUpdateADatabase] *)
Module notion_update_a_database.

Record Args := mkArgs {
  database_id : jsstring;
  title : option json;
  description : option json;
  properties : option json;
}.

Definition parameters : Schema :=
  zobject
    [(lit "database_id", zstring);
     (lit "title",
      ZOptional
        (zarray
           (zobject
              [(lit "text", zobject [(lit "content", zstring_max 2000)])])));
     (lit "description",
      ZOptional
        (zarray
           (zobject
              [(lit "text", zobject [(lit "content", zstring_max 2000)])])));
     (lit "properties", ZOptional (ZRecord ZAny))].

Definition typed (o : json) : option Args :=
  database_id ← string_arg (lit "database_id") o;
  title ← optional_value_arg (lit "title") o;
  description ← optional_value_arg (lit "description") o;
  properties ← optional_value_arg (lit "properties") o;
  Some (mkArgs database_id title description properties).

Definition execute (notionToken : option jsstring) (args : Args)
  : Promise json :=
  if negb (truthy_opt notionToken) then mret (error_only token_not_configured)
  else
    let requestBody : list (jsstring * json) := [] in
    let requestBody :=
      assign_if (truthy_value (title args)) (lit "title") (title args)
        requestBody in
    let requestBody :=
      assign_if (truthy_value (description args)) (lit "description")
        (description args) requestBody in
    let requestBody :=
      assign_if (truthy_value (properties args)) (lit "properties")
        (properties args) requestBody in
    match requestBody with
    | [] =>
        mret (error_only
                (lit "At least one property (title, description, or properties) must be provided to update the database."))
    | _ :: _ =>
        let url :=
          template_url
            (NOTION_API_BASE_URL ++ lit "/databases/" ++ database_id args) [] in
        try_catch
          (response ← fetch
             (mkRequest PATCH url (notion_headers (template notionToken))
                       (Some (JObject requestBody)));
           if negb (ok response) then
             errorData ← response_json response;
             mret (error_details
                     (lit "Notion API request failed with status "
                      ++ Number_toString (Z.of_N (status response)))
                     errorData)
           else
             databaseData ← response_json response;
             mret databaseData)
          (fun error =>
             mret (error_details
                     (lit "Failed to execute Notion update database due to a network or unexpected error.")
                     (JString (error_text error))))
    end.

Definition notionUpdateADatabase (notionToken : option jsstring) : Tool :=
  mkTool Args parameters typed (execute notionToken).

End notion_update_a_database.

(** [notionRetrieveAPageProperty] *)
Module notion_retrieve_a_page_property.

Record Args := mkArgs {
  page_id : jsstring;
  property_id : jsstring;
  page_size : option Z;
  start_cursor : option jsstring;
}.

Definition parameters : Schema :=
  zobject [(lit "page_id", zstring);
           (lit "property_id", zstring);
           (lit "page_size", ZOptional zpage_size);
           (lit "start_cursor", ZOptional zstring)].

Definition typed (o : json) : option Args :=
  page_id ← string_arg (lit "page_id") o;
  property_id ← string_arg (lit "property_id") o;
  page_size ← optional_integer_arg (lit "page_size") o;
  start_cursor ← optional_string_arg (lit "start_cursor") o;
  Some (mkArgs page_id property_id page_size start_cursor).

Definition execute (notionToken : option jsstring) (args : Args)
  : Promise json :=
  if negb (truthy_opt notionToken) then mret (error_only token_not_configured)
  else
    let queryParams : list (jsstring * jsstring) := [] in
    let queryParams :=
      match page_size args with
      | Some n => if truthy_number (Some n)
                  then append (lit "page_size") (Number_toString n) queryParams
                  else queryParams
      | None => queryParams
      end in
    let queryParams :=
      match start_cursor args with
      | Some c => if truthy c then append (lit "start_cursor") c queryParams
                  else queryParams
      | None => queryParams
      end in
    let url :=
      template_url
        (NOTION_API_BASE_URL ++ lit "/pages/" ++ page_id args
         ++ lit "/properties/" ++ property_id args) queryParams in
    try_catch
      (response ← fetch
         (mkRequest GET url (notion_headers (template notionToken))
                   None);
       if negb (ok response) then
         errorData ← response_json response;
         mret (error_details
                 (lit "Notion API request failed with status "
                  ++ Number_toString (Z.of_N (status response)))
                 errorData)
       else
         propertyData ← response_json response;
         mret propertyData)
      (fun error =>
         mret (error_details
                 (lit "Failed to execute Notion retrieve page property due to a network or unexpected error.")
                 (JString (error_text error)))).

Definition notionRetrieveAPageProperty (notionToken : option jsstring) : Tool :=
  mkTool Args parameters typed (execute notionToken).

End notion_retrieve_a_page_property.

(** [lib/ai/tools/notion-post-search.ts]: the token is an argument of the
    tool, not a value the tool is built with *)
Module notion_post_search.

Record Args := mkArgs {
  notionToken : jsstring;
  query : jsstring;
  sort : option json;
  filter : option json;
  start_cursor : option jsstring;
  page_size : option Z;
}.

Definition parameters : Schema :=
  zobject
    [(lit "notionToken", zstring);
     (lit "query", zstring);
     (lit "sort",
      ZOptional
        (zobject
           [(lit "direction",
             ZOptional (ZEnum [lit "ascending"; lit "descending"]));
            (lit "timestamp", ZOptional (ZLiteral (lit "last_edited_time")))]));
     (lit "filter",
      ZOptional
        (zobject
           [(lit "value", ZEnum [lit "page"; lit "database"]);
            (lit "property", ZLiteral (lit "object"))]));
     (lit "start_cursor", ZOptional zstring);
     (lit "page_size", ZOptional zpage_size)].

Definition typed (o : json) : option Args :=
  notionToken ← string_arg (lit "notionToken") o;
  query ← string_arg (lit "query") o;
  sort ← optional_value_arg (lit "sort") o;
  filter ← optional_value_arg (lit "filter") o;
  start_cursor ← optional_string_arg (lit "start_cursor") o;
  page_size ← optional_integer_arg (lit "page_size") o;
  Some (mkArgs notionToken query sort filter start_cursor page_size).

Definition execute (args : Args) : Promise json :=
  let requestBody := [(lit "query", JString (query args))] in
  let requestBody :=
    assign_if (truthy_value (sort args)) (lit "sort") (sort args) requestBody in
  let requestBody :=
    assign_if (truthy_value (filter args)) (lit "filter") (filter args)
      requestBody in
  let requestBody :=
    assign_if (truthy_opt (start_cursor args)) (lit "start_cursor")
      (jstring_opt (start_cursor args)) requestBody in
  let requestBody :=
    assign_if (truthy_number (page_size args)) (lit "page_size")
      (jinteger_opt (page_size args)) requestBody in
  try_catch
    (response ← fetch
       (mkRequest POST
                 (template_url (NOTION_API_BASE_URL ++ lit "/search") [])
                 (notion_headers (notionToken args)) (Some (JObject requestBody)));
     if negb (ok response) then
       errorData ← response_json response;
       mret (error_details
               (lit "Notion API request failed with status "
                ++ Number_toString (Z.of_N (status response)))
               errorData)
     else
       searchData ← response_json response;
       mret searchData)
    (fun error =>
       mret (error_details
               (lit "Failed to execute Notion search due to a network or unexpected error.")
               (JString (error_text error)))).

Definition notionPostSearch : Tool :=
  mkTool Args parameters typed execute.

End notion_post_search.

(** The [notionGetUser] that takes the token as an argument of the tool *)
Module notion_get_user_by_argument.

Record Args := mkArgs {
  notionToken : jsstring;
  user_id : jsstring;
}.

Definition parameters : Schema :=
  zobject [(lit "notionToken", zstring);
           (lit "user_id", zstring)].

Definition typed (o : json) : option Args :=
  notionToken ← string_arg (lit "notionToken") o;
  user_id ← string_arg (lit "user_id") o;
  Some (mkArgs notionToken user_id).

Definition execute (args : Args) : Promise json :=
  try_catch
    (response ← fetch
       (mkRequest GET
                 (template_url (NOTION_API_BASE_URL ++ lit "/users/" ++ user_id args) [])
                 (notion_headers (notionToken args)) None);
     if negb (ok response) then
       errorData ← response_json response;
       mret (error_details
               (lit "Notion API request failed with status "
                ++ Number_toString (Z.of_N (status response)))
               errorData)
     else
       userData ← response_json response;
       mret userData)
    (fun error =>
       mret (error_details
               (lit "Failed to execute Notion get user due to a network or unexpected error.")
               (JString (error_text error)))).

Definition notionGetUser : Tool :=
  mkTool Args parameters typed execute.

End notion_get_user_by_argument.

(** *** The adapters together *)

(** An adapter is either built with the token ([({ notionToken }) => tool(...)])
    or is a tool that takes the token among its arguments. *)
Inductive Adapter :=
| BuiltWith (factory : option jsstring -> Tool)
| Plain (tool : Tool).

(** The tool an adapter gives for a token. *)
Definition bound (a : Adapter) (notionToken : option jsstring) : Tool :=
  match a with
  | BuiltWith factory => factory notionToken
  | Plain tool => tool
  end.

Definition built_with_token : list (option jsstring -> Tool) :=
  [notion_retrieve_a_block.notionRetrieveABlock;
   notion_get_users.notionGetUsers;
   notion_get_user.notionGetUser;
   notion_get_self.notionGetSelf;
   notion_retrieve_a_database.notionRetrieveADatabase;
   notion_delete_a_block.notionDeleteABlock;
   notion_create_a_comment.notionCreateAComment;
   notion_update_a_block.notionUpdateABlock;
   notion_patch_page.notionPatchPage;
   notion_create_a_database.notionCreateADatabase;
   notion_post_database_query.notionPostDatabaseQuery;
   notion_patch_block_children.notionPatchBlockChildren;
   notion_retrieve_a_page.notionRetrieveAPage;
   notion_get_block_children.notionGetBlockChildren;
   notion_retrieve_a_comment.notionRetrieveAComment;
   notion_post_page.notionPostPage;
   notion_update_a_database.notionUpdateADatabase;
   notion_retrieve_a_page_property.notionRetrieveAPageProperty].

Definition token_as_argument : list Tool :=
  [notion_post_search.notionPostSearch;
   notion_get_user_by_argument.notionGetUser].

Definition adapters : list Adapter :=
  (BuiltWith <$> built_with_token) ++ (Plain <$> token_as_argument).

(** *** What the adapters have in common *)

(** The round trip every adapter ends with: one request; a response that is
    not [ok] becomes an error result with its status and decoded body, any
    other response is returned decoded; whatever is thrown on the way becomes
    an error result with [failure] as its message. *)
Definition round_trip (req : Request) (status_prefix failure : jsstring)
  : Promise json :=
  try_catch
    (response ← fetch req;
     if negb (ok response) then
       errorData ← response_json response;
       mret (error_details
               (status_prefix ++ Number_toString (Z.of_N (status response)))
               errorData)
     else
       data ← response_json response;
       mret data)
    (fun error => mret (error_details failure (JString (error_text error)))).

(** The transport-failure message of an adapter: one sentence, with the
    adapter's own name for the operation in it. *)
Definition transport_failure (operation : jsstring) : jsstring :=
  lit "Failed to execute Notion " ++ operation
  ++ lit " due to a network or unexpected error.".

(** [s] without the prefix [pre], when it starts with it. *)
Fixpoint strip_prefix (pre s : jsstring) : option jsstring :=
  match pre, s with
  | [], _ => Some s
  | p :: pre', c :: s' => if (p =? c)%N then strip_prefix pre' s' else None
  | _ :: _, [] => None
  end.

(** The operation a transport-failure message names. *)
Definition failure_operation (message : jsstring) : option jsstring :=
  rest ← strip_prefix (lit "Failed to execute Notion ") message;
  reverse <$>
    strip_prefix (reverse (lit " due to a network or unexpected error."))
      (reverse rest).

(** *** Invocation by the agent runtime *)

Inductive Invocation :=
| InvalidArguments
| Executed (run : list Request * Settled json).

(** Modelled from the spec: the agent runtime's dispatch of a tool call (the
    chat route and the SDK function it hands the tools to are not among the
    sources). The model's arguments are parsed with the tool's declared
    schema, and [execute] runs only on arguments the schema accepted. *)
Definition invoke (h : Host) (t : Tool) (input : json) : Invocation :=
  match accepts h t input with
  | Some args => Executed (execute t args h)
  | None => InvalidArguments
  end.

Definition invocation_requests (i : Invocation) : list Request :=
  match i with
  | InvalidArguments => []
  | Executed run => requests run
  end.

End Tools.

Import Tools.

(** ** Sample hosts and calls *)

Module Samples.

Definition not_found_body : json :=
  JObject [(lit "code", JString (lit "object_not_found"))].

(** A remote that answers every request with 404 and an [object_not_found]
    body. *)
Definition host_not_found : Host :=
  mkHost (fun _ => Fulfilled (mkResponse 404 (Fulfilled not_found_body)))
         (fun _ => Rejected (ThrownError (lit "Unexpected end of JSON input")))
         (fun _ => true).

(** A network on which every request fails. *)
Definition host_offline : Host :=
  mkHost (fun _ => Rejected (ThrownError (lit "fetch failed")))
         (fun _ => Rejected (ThrownError (lit "Unexpected end of JSON input")))
         (fun _ => true).

(** A gateway that answers every request with 502 and an HTML page. *)
Definition host_bad_gateway : Host :=
  mkHost (fun _ =>
            Fulfilled
              (mkResponse 502
                 (Rejected
                    (ThrownError
                       (lit "Unexpected token < in JSON at position 0")))))
         (fun _ => Rejected (ThrownError (lit "Unexpected end of JSON input")))
         (fun _ => true).

(** A remote that answers every request with 200 and an empty object. *)
Definition host_ok : Host :=
  mkHost (fun _ => Fulfilled (mkResponse 200 (Fulfilled (JObject []))))
         (fun _ => Rejected (ThrownError (lit "Unexpected end of JSON input")))
         (fun _ => true).

Definition some_token : option jsstring := Some (lit "secret_token").

(** The connector with the secret [  secret_abc ] typed in, nothing stored. *)
Definition typed_secret : Connector.World :=
  Connector.mkWorld (Connector.mkState true (lit "  secret_abc ") false) ∅ [].


(** [{ block_id: "b1" }] *)
Definition block_call : json :=
  JObject [(lit "block_id", JString (lit "b1"))].

(** [{ page_id: "abc" }] *)
Definition page_call : json :=
  JObject [(lit "page_id", JString (lit "abc"))].

(** [{ page_id: "abc", filter_properties: "title, iAk8 ,b7dh" }] *)
Definition filtered_page_call : json :=
  JObject [(lit "page_id", JString (lit "abc"));
           (lit "filter_properties", JString (lit "title, iAk8 ,b7dh"))].

(** [{ page_id: "abc?filter_properties=x" }] *)
Definition page_call_with_query : json :=
  JObject [(lit "page_id", JString (lit "abc?filter_properties=x"))].

(** [{ page_id: "abc", filter_properties: "" }] *)
Definition empty_filter_page_call : json :=
  JObject [(lit "page_id", JString (lit "abc"));
           (lit "filter_properties", JString [])].

(** [{ block_id: "b1", to_do: { checked: true } }] *)
Definition check_to_do_call : json :=
  JObject [(lit "block_id", JString (lit "b1"));
           (lit "to_do", JObject [(lit "checked", JBool true)])].

(** [{ block_id: "b1", to_do: { checked: true }, archived: false,
       quote: { rich_text: [{ text: { content: "hi" } }] } }] *)
Definition two_updates_call : json :=
  JObject [(lit "block_id", JString (lit "b1"));
           (lit "to_do", JObject [(lit "checked", JBool true)]);
           (lit "archived", JBool false);
           (lit "quote",
            JObject
              [(lit "rich_text",
                JArray
                  [JObject
                     [(lit "text",
                       JObject [(lit "content", JString (lit "hi"))])]])])].

(** [{ page_size: 0, start_cursor: "c1", extra: null }] *)
Definition users_call : json :=
  JObject [(lit "page_size", JNumber (Int 0));
           (lit "start_cursor", JString (lit "c1"));
           (lit "extra", JNull)].

(** [{ database_id: "d1", title: [{ text: { content: "T" } }] }] *)
Definition retitle_call : json :=
  JObject
    [(lit "database_id", JString (lit "d1"));
     (lit "title",
      JArray
        [JObject [(lit "text", JObject [(lit "content", JString (lit "T"))])]])].

(** [{ parent: { page_id: "p1", type: "page_id" }, propertiesJson: "{" }] *)
Definition create_database_call : json :=
  JObject
    [(lit "parent",
      JObject [(lit "page_id", JString (lit "p1"));
               (lit "type", JString (lit "page_id"))]);
     (lit "propertiesJson", JString (lit "{"))].

(** [{ database_id: "d1", filter: { or: [] }, page_size: 0,
       filter_properties: ["title"] }] *)
Definition query_call : json :=
  JObject
    [(lit "database_id", JString (lit "d1"));
     (lit "filter", JObject [(lit "or", JArray [])]);
     (lit "page_size", JNumber (Int 0));
     (lit "filter_properties", JArray [JString (lit "title")])].

(** [{ block_id: "b1",
       children: [{ type: "paragraph",
                    paragraph: { rich_text: [{ text: { content: "hi" } }] } }] }] *)
Definition children_call : json :=
  JObject
    [(lit "block_id", JString (lit "b1"));
     (lit "children",
      JArray
        [JObject
           [(lit "type", JString (lit "paragraph"));
            (lit "paragraph",
             JObject
               [(lit "rich_text",
                 JArray
                   [JObject
                      [(lit "text",
                        JObject [(lit "content", JString (lit "hi"))])]])])]])].


(** [{ notionToken: "", query: "x" }] *)
Definition search_call : json :=
  JObject [(lit "notionToken", JString []); (lit "query", JString (lit "x"))].

End Samples.

(** ** Sessions of the connector *)

Module Sessions.

Import Connector.

(** The component after a session: the events applied in order. *)
Fixpoint replay (chatId : jsstring) (es : list Event) (w : World) : World :=
  match es with
  | [] => w
  | e :: es' => replay chatId es' (step chatId e w)
  end.

End Sessions.

(** ** The result envelope *)

Module Envelope.

(** An error result: an object whose first member is [error], with a
    string. *)
Definition is_error_result (v : json) : Prop :=
  exists message rest, v = JObject ((lit "error", JString message) :: rest).

End Envelope.

(** ** The loops of the schema parser, by name *)

Module ZodParts.

Section Parts.

Variable url_parses : jsstring -> bool.

Section Fields.

Variable data : list (jsstring * json).

(** The members an object schema gives for the keys of its shape. *)
Fixpoint object_fields (shape : list (jsstring * Schema))
  : option (list (jsstring * json)) :=
  match shape with
  | [] => Some []
  | (k, sk) :: rest =>
      match parse url_parses sk (member k data), object_fields rest with
      | Some (Some v), Some out => Some ((k, v) :: out)
      | Some None, Some out => Some out
      | _, _ => None
      end
  end.

End Fields.

Section Elements.

Variable element : Schema.

(** The elements an array schema gives. *)
Fixpoint array_elements (items : list json) : option (list json) :=
  match items with
  | [] => Some []
  | x :: rest =>
      match parse url_parses element (Some x), array_elements rest with
      | Some (Some v), Some out => Some (v :: out)
      | _, _ => None
      end
  end.

End Elements.

End Parts.

(** Whether a key is one of a shape's. *)
Fixpoint shape_knows (k : jsstring) (shape : list (jsstring * Schema)) : bool :=
  match shape with
  | [] => false
  | (k', _) :: rest => str_eqb k k' || shape_knows k rest
  end.

(** Whether the keys of a shape are all different. *)
Fixpoint distinct_keys (shape : list (jsstring * Schema)) : bool :=
  match shape with
  | [] => true
  | (k, _) :: rest => negb (shape_knows k rest) && distinct_keys rest
  end.


End ZodParts.

(** ** Request bodies *)

Module Bodies.

(** The member an optional argument gives a request body: none when the
    argument is [undefined]. *)
Definition named (k : jsstring) (v : option json) : list (jsstring * json) :=
  match v with
  | Some x => [(k, x)]
  | None => []
  end.

(** A cursor as the adapters use it: an empty one counts as none. *)
Definition given (cursor : option jsstring) : option jsstring :=
  if truthy_opt cursor then cursor else None.

(** What a child block of [notionPatchBlockChildren] looks like when its
    [type] names the one content object it carries. *)
Definition carries (type other : jsstring) (block : json) : Prop :=
  field (lit "type") block = Some (JString type)
  /\ defined (field type block) = true
  /\ field other block = None.


End Bodies.

(** * Properties *)

(** ** Strings *)

Lemma trimStart_head s c :
  head (trimStart s) = Some c -> is_white_space c = false.
Proof.
  induction s as [|x s IH]; simpl; [discriminate|].
  destruct (is_white_space x) eqn:Hx; [exact IH|].
  simpl. intros [= <-]. exact Hx.
Qed.

Lemma trimEnd_last s c :
  last (trimEnd s) = Some c -> is_white_space c = false.
Proof.
  induction s as [|x s IH]; simpl; [discriminate|].
  destruct (trimEnd s) as [|y r] eqn:E.
  - destruct (is_white_space x) eqn:Hx; simpl; [discriminate|].
    intros [= <-]. exact Hx.
  - simpl in *. exact IH.
Qed.

Lemma trimEnd_head s c :
  head (trimEnd s) = Some c -> head s = Some c.
Proof.
  destruct s as [|x s]; simpl; [discriminate|].
  destruct (trimEnd s); [destruct (is_white_space x)|]; simpl; congruence.
Qed.

Lemma trim_head s c : head (trim s) = Some c -> is_white_space c = false.
Proof. intros H. apply trimEnd_head in H. eapply trimStart_head, H. Qed.

Lemma trim_last s c : last (trim s) = Some c -> is_white_space c = false.
Proof. apply trimEnd_last. Qed.

Lemma trimEnd_nil s : trimEnd s = [] <-> forallb is_white_space s = true.
Proof.
  induction s as [|x s IH]; simpl; [tauto|].
  destruct (trimEnd s) as [|y r].
  - destruct (is_white_space x); simpl; [tauto|]. split; discriminate.
  - split; [discriminate|]. intros [_ H]%andb_prop. apply IH in H. discriminate.
Qed.

Lemma trimStart_white s :
  forallb is_white_space (trimStart s) = forallb is_white_space s.
Proof.
  induction s as [|x s IH]; simpl; [reflexivity|].
  destruct (is_white_space x) eqn:Hx; simpl; [exact IH|].
  rewrite Hx. reflexivity.
Qed.

(** The trimmed string is empty exactly for inputs made of white space. *)
Lemma trim_nil s : trim s = [] <-> forallb is_white_space s = true.
Proof. unfold trim. rewrite trimEnd_nil, trimStart_white. tauto. Qed.

Lemma truthy_trim s : truthy (trim s) = negb (forallb is_white_space s).
Proof.
  destruct (forallb is_white_space s) eqn:H.
  - apply trim_nil in H. rewrite H. reflexivity.
  - destruct (trim s) eqn:E; [|reflexivity].
    apply trim_nil in E. congruence.
Qed.

Lemma truthy_nonempty (s : jsstring) : truthy s = true <-> s <> [].
Proof. destruct s; simpl; split; congruence. Qed.

(** ** The model on small inputs *)

Module Checks.

Import Samples.

Example trim_both_ends : trim ([32; 9]%N ++ lit "a b" ++ [10; 32]%N) = lit "a b".
Proof. reflexivity. Qed.

Example trim_no_break_space : trim [160; 97; 8232; 65279]%N = [97%N].
Proof. reflexivity. Qed.

Example split_keeps_empty_pieces :
  split 44 (lit "a,,b ,") = [lit "a"; []; lit "b "; []].
Proof. reflexivity. Qed.

Example split_empty : split 44 [] = [[]].
Proof. reflexivity. Qed.

Example status_in_decimal : Number_toString 404 = lit "404".
Proof. reflexivity. Qed.

Example unpaired_surrogates_replaced :
  USVString [55357; 56832; 55357; 97; 56832]%N
  = [55357; 56832; 65533; 97; 65533]%N.
Proof. vm_compute. reflexivity. Qed.

(** [%E2%82%AC] is the euro sign, a [+] is a space, and bytes that are not
    UTF-8 become U+FFFD. *)
Example form_decode_escapes :
  form_decode (lit "a+b%E2%82%ACc%C3%41") = [97; 32; 98; 8364; 99; 65533; 65]%N.
Proof. vm_compute. reflexivity. Qed.

Example new_URL_reads_the_query :
  new_URL
    (lit "https://api.notion.com/v1/pages/a%20b?x=1&filter_properties=a+b%2Cc&&y#frag?z=1")
  = mkUrl (lit "https://api.notion.com/v1/pages/a%20b")
      [(lit "x", lit "1"); (lit "filter_properties", lit "a b,c"); (lit "y", [])]
      (Some (lit "frag?z=1")).
Proof. vm_compute. reflexivity. Qed.

(** The update-a-block schema takes one block-specific update, and fills in
    nothing. *)
Example update_a_block_accepts_one_update :
  accepts host_ok (notion_update_a_block.notionUpdateABlock some_token)
    check_to_do_call
  = Some (notion_update_a_block.mkArgs (lit "b1") None
            [(lit "to_do", JObject [(lit "checked", JBool true)])]).
Proof. vm_compute. reflexivity. Qed.

Example update_a_block_rejects_two_updates :
  accepts host_ok (notion_update_a_block.notionUpdateABlock some_token)
    two_updates_call
  = None.
Proof. vm_compute. reflexivity. Qed.

(** A page size of [0] is accepted and sent; an unknown key is dropped. *)
Example get_users_sends_page_size_zero :
  (fun args =>
     requests (execute (notion_get_users.notionGetUsers some_token) args host_ok))
  <$> accepts host_ok (notion_get_users.notionGetUsers some_token) users_call
  = Some
      [mkRequest GET
         (mkUrl (lit "https://api.notion.com/v1/users")
            [(lit "start_cursor", lit "c1"); (lit "page_size", lit "0")] None)
         (notion_headers (lit "secret_token")) None].
Proof. vm_compute. reflexivity. Qed.

End Checks.

(** ** The credential connector *)

Module ConnectorFacts.

Import Connector Samples.

(** Mounting reads the slot and nothing else of the storage: the component
    state it leaves depends on the slot's truthiness only. *)
Lemma mount_state storage :
  state (mount storage)
  = mkState false []
      (truthy_opt (storage !! NOTION_TOKEN_LOCAL_STORAGE_KEY)).
Proof.
  unfold mount, useEffect. simpl.
  destruct (truthy_opt (storage !! _)); reflexivity.
Qed.


Lemma trimmed_trim s : trim s <> [] -> trimmed (trim s).
Proof.
  intros H. split; [exact H|]. split.
  - apply trim_head.
  - apply trim_last.
Qed.



(** C4. After a non-empty secret is saved (the handler stores the trimmed
    input, so the secret is the trimmed input: the slot holds it after the
    save) and the component is mounted again on the same storage, the
    configured state reads true. After the clear command the configured
    state reads false and the input field is the empty string, and the
    component mounted again on that storage is still not configured. *)
Theorem C4_save_then_mount_and_clear (chatId : jsstring) (w : World) :
  (trim (secretInputValue (state w)) <> [] ->
   localStorage (handleSaveSecret chatId w) !! NOTION_TOKEN_LOCAL_STORAGE_KEY
   = Some (trim (secretInputValue (state w)))
   /\ isConfigured
        (state (mount (localStorage (handleSaveSecret chatId w)))) = true)
  /\ isConfigured (state (handleClearSecret chatId w)) = false
  /\ secretInputValue (state (handleClearSecret chatId w)) = []
  /\ isConfigured (state (mount (localStorage (handleClearSecret chatId w))))
     = false.
Proof.
  split; [|split; [reflexivity|split; [reflexivity|]]].
  - intros Hne. rewrite mount_state. simpl.
    unfold handleSaveSecret.
    apply truthy_nonempty in Hne as Ht. rewrite Ht. simpl.
    rewrite lookup_insert_eq. simpl. split; [reflexivity|exact Ht].
  - rewrite mount_state. simpl. rewrite lookup_delete_eq. reflexivity.
Qed.

Lemma C4_witness :
  localStorage (handleSaveSecret (lit "chat-1") typed_secret)
    !! NOTION_TOKEN_LOCAL_STORAGE_KEY
  = Some (trim (lit "  secret_abc "))
  /\ isConfigured
       (state
          (mount (localStorage (handleSaveSecret (lit "chat-1") typed_secret))))
     = true.
Proof.
  apply (C4_save_then_mount_and_clear (lit "chat-1") typed_secret).
  vm_compute. discriminate.
Defined.



(** C10. The save handler keeps the slot's invariant (a stored credential is
    non-empty and has no white space at either end). An input made of white
    space only, the empty input included, leaves everything as it was; any
    other input puts its trimmed value in the slot and sets the configured
    state. *)
Theorem C10_save_keeps_slot_trimmed (chatId : jsstring) (w : World) :
  slot_ok (localStorage w) ->
  slot_ok (localStorage (handleSaveSecret chatId w))
  /\ (forallb is_white_space (secretInputValue (state w)) = true ->
      handleSaveSecret chatId w = w)
  /\ (forallb is_white_space (secretInputValue (state w)) = false ->
      localStorage (handleSaveSecret chatId w)
      = <[NOTION_TOKEN_LOCAL_STORAGE_KEY := trim (secretInputValue (state w))]>
          (localStorage w)
      /\ isConfigured (state (handleSaveSecret chatId w)) = true).
Proof.
  intros Hok. unfold handleSaveSecret. rewrite truthy_trim.
  destruct (forallb is_white_space (secretInputValue (state w))) eqn:Hws;
    simpl.
  - split; [exact Hok|]. split; [reflexivity|discriminate].
  - split; [|split; [discriminate|intros _; split; reflexivity]].
    intros tok. rewrite lookup_insert_eq. intros [= <-].
    apply trimmed_trim. intros E. apply trim_nil in E. congruence.
Qed.

Lemma C10_witness :
  slot_ok (localStorage (handleSaveSecret (lit "chat-1") typed_secret))
  /\ localStorage (handleSaveSecret (lit "chat-1") typed_secret)
       !! NOTION_TOKEN_LOCAL_STORAGE_KEY
     = Some (lit "secret_abc").
Proof.
  destruct (C10_save_keeps_slot_trimmed (lit "chat-1") typed_secret)
    as (Hok & _ & Hsave).
  - intros tok. simpl. rewrite lookup_empty. discriminate.
  - split; [exact Hok|].
    destruct Hsave as [-> _]; [reflexivity|].
    rewrite lookup_insert_eq. reflexivity.
Defined.

End ConnectorFacts.

(** ** The tool adapters *)

Module ToolFacts.

(** How a round trip runs against a host. *)
Lemma round_trip_run req status_prefix failure h :
  round_trip req status_prefix failure h =
  ([req],
   match host_fetch h req with
   | Rejected e => Fulfilled (error_details failure (JString (error_text e)))
   | Fulfilled response =>
       match json_body response with
       | Rejected e =>
           Fulfilled (error_details failure (JString (error_text e)))
       | Fulfilled data =>
           if ok response then Fulfilled data
           else Fulfilled
                  (error_details
                     (status_prefix
                      ++ Number_toString (Z.of_N (status response))) data)
       end
   end).
Proof.
  unfold round_trip, try_catch, mbind, promise_bind, await, fetch,
    response_json, mret, promise_ret, resolve.
  destruct (host_fetch h req) as [response|e]; [|reflexivity].
  destruct (ok response); simpl; destruct (json_body response); reflexivity.
Qed.

Lemma strip_prefix_sound pre : forall s rest,
  strip_prefix pre s = Some rest -> s = pre ++ rest.
Proof.
  induction pre as [|p pre IH]; intros [|c s] rest; simpl;
    try congruence.
  destruct (N.eqb_spec p c) as [->|]; [|discriminate].
  intros H. f_equal. apply IH, H.
Qed.

Lemma failure_operation_sound message operation :
  failure_operation message = Some operation ->
  message = transport_failure operation.
Proof.
  unfold failure_operation, transport_failure. intros H.
  apply bind_Some in H as (rest & E1 & H).
  apply fmap_Some in H as (r & E2 & ->).
  apply strip_prefix_sound in E1, E2. rewrite E1. f_equal.
  rewrite <- (reverse_involutive rest), E2, reverse_app, reverse_involutive.
  reflexivity.
Qed.

(** The two ways a run of an adapter goes: it returns a value without any
    request, or it is a round trip whose failure message is the
    transport-failure sentence. *)
Inductive Shape (h : Host) (run : list Request * Settled json) : Prop :=
| Local v : run = ([], Fulfilled v) -> Shape h run
| RoundTrip req status_prefix operation :
    run = round_trip req status_prefix (transport_failure operation) h ->
    Shape h run.

Lemma RoundTrip' h run req status_prefix failure operation :
  run = round_trip req status_prefix failure h ->
  failure_operation failure = Some operation ->
  Shape h run.
Proof.
  intros -> Hf. apply failure_operation_sound in Hf as ->.
  eapply RoundTrip. reflexivity.
Qed.

Ltac round_trip_shape :=
  eapply RoundTrip'; [reflexivity | vm_compute; reflexivity].

Ltac local_shape := eapply Local; reflexivity.

#[local] Arguments lit : simpl never.
#[local] Arguments try_catch : simpl never.
#[local] Arguments fetch : simpl never.
#[local] Arguments response_json : simpl never.
#[local] Arguments JSON_parse : simpl never.
#[local] Arguments mbind : simpl never.
#[local] Arguments mret : simpl never.
#[local] Arguments Number_toString : simpl never.
#[local] Arguments new_URL : simpl never.
#[local] Arguments append : simpl never.
#[local] Arguments app : simpl never.

(** An adapter's run, one case of its tests at a time. *)
Ltac shape :=
  first
    [ local_shape
    | round_trip_shape
    | match goal with
      | |- context [if ?b then _ else _] => destruct b
      | |- context [match ?o with Some _ => _ | None => _ end] => destruct o
      | |- context [match ?l with [] => _ | _ :: _ => _ end] => destruct l
      | |- context [let '(_, _) := ?p in _] => destruct p
      end; cbn; shape ].

Lemma shape_retrieve_a_block tok args h :
  Shape h (notion_retrieve_a_block.execute tok args h).
Proof. unfold notion_retrieve_a_block.execute. shape. Qed.

Lemma shape_get_users tok args h :
  Shape h (notion_get_users.execute tok args h).
Proof. unfold notion_get_users.execute. shape. Qed.

Lemma shape_get_user tok args h :
  Shape h (notion_get_user.execute tok args h).
Proof. unfold notion_get_user.execute. shape. Qed.

Lemma shape_get_self tok args h :
  Shape h (notion_get_self.execute tok args h).
Proof. unfold notion_get_self.execute. shape. Qed.

Lemma shape_retrieve_a_database tok args h :
  Shape h (notion_retrieve_a_database.execute tok args h).
Proof. unfold notion_retrieve_a_database.execute. shape. Qed.

Lemma shape_delete_a_block tok args h :
  Shape h (notion_delete_a_block.execute tok args h).
Proof. unfold notion_delete_a_block.execute. shape. Qed.

Lemma shape_create_a_comment tok args h :
  Shape h (notion_create_a_comment.execute tok args h).
Proof. unfold notion_create_a_comment.execute. shape. Qed.

Lemma shape_update_a_block tok args h :
  Shape h (notion_update_a_block.execute tok args h).
Proof.
  unfold notion_update_a_block.execute.
  destruct args as [block_id [archived|] [|[key value] rest]]; cbn; shape.
Qed.

Lemma shape_patch_page tok args h :
  Shape h (notion_patch_page.execute tok args h).
Proof. unfold notion_patch_page.execute. shape. Qed.

Lemma shape_post_database_query tok args h :
  Shape h (notion_post_database_query.execute tok args h).
Proof. unfold notion_post_database_query.execute. shape. Qed.

Lemma shape_patch_block_children tok args h :
  Shape h (notion_patch_block_children.execute tok args h).
Proof. unfold notion_patch_block_children.execute. shape. Qed.

Lemma shape_retrieve_a_page tok args h :
  Shape h (notion_retrieve_a_page.execute tok args h).
Proof. unfold notion_retrieve_a_page.execute. shape. Qed.

Lemma shape_get_block_children tok args h :
  Shape h (notion_get_block_children.execute tok args h).
Proof. unfold notion_get_block_children.execute. shape. Qed.

Lemma shape_retrieve_a_comment tok args h :
  Shape h (notion_retrieve_a_comment.execute tok args h).
Proof. unfold notion_retrieve_a_comment.execute. shape. Qed.

Lemma shape_post_page tok args h :
  Shape h (notion_post_page.execute tok args h).
Proof. unfold notion_post_page.execute. shape. Qed.

Lemma shape_retrieve_a_page_property tok args h :
  Shape h (notion_retrieve_a_page_property.execute tok args h).
Proof. unfold notion_retrieve_a_page_property.execute. shape. Qed.

Lemma shape_post_search args h :
  Shape h (notion_post_search.execute args h).
Proof. unfold notion_post_search.execute. shape. Qed.

Lemma shape_get_user_by_argument args h :
  Shape h (notion_get_user_by_argument.execute args h).
Proof. unfold notion_get_user_by_argument.execute. shape. Qed.

Lemma shape_update_a_database tok args h :
  Shape h (notion_update_a_database.execute tok args h).
Proof. unfold notion_update_a_database.execute. shape. Qed.

(** A [try] around [JSON.parse] that returns from its [catch]: the rest runs
    on what was parsed, or on what the [catch] returns. *)
Lemma await_JSON_parse {A B} text (on_error : Thrown -> B)
    (k : json + B -> Promise A) h :
  (parsed ← try_catch
     (parsedProperties ← JSON_parse text; mret (inl parsedProperties))
     (fun e => mret (inr (on_error e)));
   k parsed) h =
  match host_JSON_parse h text with
  | Fulfilled v => k (inl v) h
  | Rejected e => k (inr (on_error e)) h
  end.
Proof.
  unfold try_catch, mbind, promise_bind, await, JSON_parse, mret,
    promise_ret, resolve.
  destruct (host_JSON_parse h text); simpl; destruct (k _ h); reflexivity.
Qed.

Lemma shape_create_a_database tok args h :
  Shape h (notion_create_a_database.execute tok args h).
Proof.
  unfold notion_create_a_database.execute.
  destruct (truthy_opt tok); cbn [negb]; [|local_shape].
  rewrite await_JSON_parse.
  destruct (host_JSON_parse h _); shape.
Qed.

(** Every adapter, with any token and on any arguments of its type, runs in
    one of the two ways. *)
Lemma adapters_shape a :
  In a adapters ->
  forall tok (args : Args (bound a tok)) h,
    Shape h (execute (bound a tok) args h).
Proof.
  intros Hin tok.
  repeat (destruct Hin as [<-|Hin]; [intros args h; cbn in args |- * |]).
  21: destruct Hin.
  - apply shape_retrieve_a_block.
  - apply shape_get_users.
  - apply shape_get_user.
  - apply shape_get_self.
  - apply shape_retrieve_a_database.
  - apply shape_delete_a_block.
  - apply shape_create_a_comment.
  - apply shape_update_a_block.
  - apply shape_patch_page.
  - apply shape_create_a_database.
  - apply shape_post_database_query.
  - apply shape_patch_block_children.
  - apply shape_retrieve_a_page.
  - apply shape_get_block_children.
  - apply shape_retrieve_a_comment.
  - apply shape_post_page.
  - apply shape_update_a_database.
  - apply shape_retrieve_a_page_property.
  - apply shape_post_search.
  - apply shape_get_user_by_argument.
Qed.

(** *** What follows from the shape of a run *)

Lemma shape_requests h run : Shape h run -> length (requests run) <= 1.
Proof.
  intros [v ->|req sp op ->]; [simpl; lia|].
  rewrite round_trip_run. simpl. lia.
Qed.




Ltac in_adapters :=
  unfold adapters, built_with_token, token_as_argument; simpl; auto 30.

Import Samples.

(** *** C1 *)

(** C1, as stated, fails for the search adapter: it is not built with a
    token, its schema accepts the call below, whose token argument is the
    empty string, and it sends a request, with [Bearer ] as its
    authorization, and returns what the remote answers. *)
Lemma C1_counterexample :
  In (Plain notion_post_search.notionPostSearch) adapters
  /\ accepts host_ok (bound (Plain notion_post_search.notionPostSearch) None)
       search_call
     = Some (notion_post_search.mkArgs [] (lit "x") None None None None)
  /\ execute (bound (Plain notion_post_search.notionPostSearch) None)
       (notion_post_search.mkArgs [] (lit "x") None None None None) host_ok
     = ([mkRequest POST
           (mkUrl (lit "https://api.notion.com/v1/search") [] None)
           [(lit "Authorization", lit "Bearer ");
            (lit "Notion-Version", lit "2022-06-28");
            (lit "Content-Type", lit "application/json")]
           (Some (JObject [(lit "query", JString (lit "x"))]))],
        Fulfilled (JObject [])).
Proof.
  split; [in_adapters|]. split; vm_compute; reflexivity.
Qed.

(** C1, amended. Every adapter built with a token, when the token is null
    or the empty string, returns the missing-credential error on any
    arguments its schema accepts and sends no request. *)
Theorem C1_no_token_no_request factory :
  In factory built_with_token ->
  forall (tok : option jsstring) h input args,
    truthy_opt tok = false ->
    accepts h (factory tok) input = Some args ->
    execute (factory tok) args h
    = ([], Fulfilled (error_only token_not_configured)).
Proof.
  intros Hin tok h input args Htok _. revert args.
  unfold built_with_token in Hin. simpl in Hin.
  repeat (destruct Hin as [<-|Hin];
          [intros args; cbn in args |- *;
           match goal with
           | |- ?f _ _ _ = _ => unfold f
           end; rewrite Htok; reflexivity |]).
  destruct Hin.
Qed.

Lemma C1_witness :
  execute (notion_retrieve_a_block.notionRetrieveABlock None)
    (notion_retrieve_a_block.mkArgs (lit "b1")) host_ok
  = ([], Fulfilled (error_only token_not_configured)).
Proof.
  apply (C1_no_token_no_request notion_retrieve_a_block.notionRetrieveABlock)
    with (input := block_call).
  - unfold built_with_token. simpl. auto.
  - reflexivity.
  - vm_compute. reflexivity.
Defined.

(** *** C2 *)



(** *** C3 *)



(** *** C7 *)

(** C7. For every adapter, token and accepted arguments, and whatever the
    host answers, one invocation sends at most one request. *)
Theorem C7_at_most_one_request a :
  In a adapters ->
  forall (tok : option jsstring) h input args,
    accepts h (bound a tok) input = Some args ->
    length (requests (execute (bound a tok) args h)) <= 1.
Proof.
  intros Hin tok h input args _.
  eapply shape_requests, adapters_shape, Hin.
Qed.

Lemma C7_witness :
  length
    (requests
       (execute (notion_retrieve_a_block.notionRetrieveABlock some_token)
          (notion_retrieve_a_block.mkArgs (lit "b1")) host_offline)) <= 1.
Proof.
  apply (C7_at_most_one_request
           (BuiltWith notion_retrieve_a_block.notionRetrieveABlock))
    with (input := block_call).
  - in_adapters.
  - vm_compute. reflexivity.
Defined.

(** *** C5 *)

(** The block-retrieval schema accepts the objects with a string
    [block_id], and nothing else. *)
Lemma accepts_retrieve_a_block h tok input :
  accepts h (notion_retrieve_a_block.notionRetrieveABlock tok) input
  = match field (lit "block_id") input with
    | Some (JString block_id) =>
        Some (notion_retrieve_a_block.mkArgs block_id)
    | _ => None
    end.
Proof.
  unfold accepts. destruct input as [| | | | |data]; try reflexivity.
  cbn. destruct (member (lit "block_id") data) as [[]|]; reflexivity.
Qed.


(** C5. For every adapter and every argument value its schema does not
    accept, the invocation is rejected without running [execute], so no
    request is sent; an argument value without a [block_id] member is such a
    value for the block-retrieval adapter. *)
Theorem C5_invalid_arguments_send_nothing a (tok : option jsstring) h input :
  (In a adapters ->
   accepts h (bound a tok) input = None ->
   invoke h (bound a tok) input = InvalidArguments
   /\ invocation_requests (invoke h (bound a tok) input) = [])
  /\ (field (lit "block_id") input = None ->
      accepts h (notion_retrieve_a_block.notionRetrieveABlock tok) input = None
      /\ invocation_requests
           (invoke h (notion_retrieve_a_block.notionRetrieveABlock tok) input)
         = []).
Proof.
  split.
  - intros _ Hrej. unfold invoke. rewrite Hrej. split; reflexivity.
  - intros Hmissing.
    assert (accepts h (notion_retrieve_a_block.notionRetrieveABlock tok) input
            = None) as Hrej.
    { rewrite accepts_retrieve_a_block, Hmissing. reflexivity. }
    split; [exact Hrej|]. unfold invoke. rewrite Hrej. reflexivity.
Qed.

Lemma C5_witness :
  invoke host_ok (notion_retrieve_a_block.notionRetrieveABlock some_token)
    (JObject [(lit "page_id", JString (lit "abc"))]) = InvalidArguments
  /\ invocation_requests
       (invoke host_ok (notion_retrieve_a_block.notionRetrieveABlock some_token)
          (JObject [(lit "page_id", JString (lit "abc"))])) = [].
Proof.
  apply (C5_invalid_arguments_send_nothing
           (BuiltWith notion_retrieve_a_block.notionRetrieveABlock)
           some_token host_ok).
  - in_adapters.
  - vm_compute. reflexivity.
Defined.

(** *** C6 *)

(** The page-retrieval adapter with a token: a round trip to the URL it
    builds. *)
Lemma retrieve_a_page_run tok args h :
  truthy_opt tok = true ->
  notion_retrieve_a_page.execute tok args h
  = round_trip
      (mkRequest GET
         (foldl
            (fun url propId =>
               searchParams_append (lit "filter_properties") (trim propId) url)
            (new_URL
               (NOTION_API_BASE_URL ++ lit "/pages/"
                ++ notion_retrieve_a_page.page_id args))
            (match notion_retrieve_a_page.filter_properties args with
             | Some s => if truthy s then split 44 s else []
             | None => []
             end))
         (notion_headers (template tok)) None)
      (lit "Notion API request (retrieve-a-page) failed with status ")
      (lit "Failed to execute Notion retrieve-a-page due to a network or unexpected error.")
      h.
Proof.
  intros Htok. unfold notion_retrieve_a_page.execute.
  rewrite Htok. cbn [negb].
  destruct (notion_retrieve_a_page.filter_properties args) as [s|];
    [destruct (truthy s)|]; reflexivity.
Qed.

(** C6. The page-retrieval adapter, built with a token and called with
    [page_id = "abc"] against a remote that answers 404 with the body
    [{"code":"object_not_found"}], returns an error result whose message ends
    with [failed with status 404] and whose details are that body. *)
Theorem C6_page_not_found (tok : option jsstring) h :
  truthy_opt tok = true ->
  (forall req,
     host_fetch h req = Fulfilled (mkResponse 404 (Fulfilled not_found_body))) ->
  exists args message,
    accepts h (notion_retrieve_a_page.notionRetrieveAPage tok) page_call
    = Some args
    /\ outcome (execute (notion_retrieve_a_page.notionRetrieveAPage tok) args h)
       = Fulfilled
           (JObject [(lit "error", JString message);
                     (lit "details",
                      JObject [(lit "code", JString (lit "object_not_found"))])])
    /\ message
       = lit "Notion API request (retrieve-a-page) failed with status 404"
    /\ ends_with message (lit "failed with status 404").
Proof.
  intros Htok Hremote.
  exists (notion_retrieve_a_page.mkArgs (lit "abc") None).
  eexists. split; [vm_compute; reflexivity|]. split; [|split].
  - cbn [execute notion_retrieve_a_page.notionRetrieveAPage].
    rewrite (retrieve_a_page_run tok _ h Htok), round_trip_run, Hremote.
    vm_compute. reflexivity.
  - reflexivity.
  - exists (lit "Notion API request (retrieve-a-page) ").
    vm_compute. reflexivity.
Qed.

Lemma C6_witness :
  exists args message,
    accepts host_not_found
      (notion_retrieve_a_page.notionRetrieveAPage some_token) page_call
    = Some args
    /\ outcome
         (execute (notion_retrieve_a_page.notionRetrieveAPage some_token) args
            host_not_found)
       = Fulfilled
           (JObject [(lit "error", JString message);
                     (lit "details",
                      JObject [(lit "code", JString (lit "object_not_found"))])])
    /\ message
       = lit "Notion API request (retrieve-a-page) failed with status 404"
    /\ ends_with message (lit "failed with status 404").
Proof.
  apply (C6_page_not_found some_token host_not_found).
  - reflexivity.
  - intros req. reflexivity.
Defined.

(** *** C9 *)

Lemma utf16_encode_point_units p c :
  c ∈ utf16_encode_point p -> c = p \/ (55296 <= c)%N.
Proof.
  unfold utf16_encode_point. destruct (p <? 65536)%N.
  - rewrite list_elem_of_singleton. auto.
  - rewrite !elem_of_cons, elem_of_nil.
    generalize ((p - 65536) / 1024)%N ((p - 65536) mod 1024)%N. lia.
Qed.

Lemma code_points_cons x (r : jsstring) :
  code_points (x :: r) =
  if is_high_surrogate x then
    match r with
    | d :: r' =>
        if is_low_surrogate d
        then (65536 + (x - 55296) * 1024 + (d - 56320))%N :: code_points r'
        else 65533%N :: code_points r
    | [] => [65533%N]
    end
  else if is_low_surrogate x then 65533%N :: code_points r
  else x :: code_points r.
Proof. destruct r; reflexivity. Qed.

(** Conversion to a [USVString] brings in no code unit below the surrogate
    range that the string did not already have. *)
Lemma USVString_units n : forall (s : jsstring) c,
  length s <= n -> c ∈ USVString s -> c ∈ s \/ (55296 <= c)%N.
Proof.
  unfold USVString, utf16_encode.
  induction n as [|n IH]; intros [|x r] c Hlen;
    try (intros H; inversion H; fail); try (simpl in Hlen; lia).
  assert (forall t, length t <= n -> c ∈ code_points t ≫= utf16_encode_point ->
                    c ∈ x :: t \/ (55296 <= c)%N) as Htail.
  { intros t Ht Hc. destruct (IH t c Ht Hc); [left; right|right]; assumption. }
  assert (forall p, (55296 <= p)%N -> c ∈ utf16_encode_point p ->
                    c ∈ x :: r \/ (55296 <= c)%N) as Hnew.
  { intros p Hp Hc. right.
    apply utf16_encode_point_units in Hc as [->|]; assumption. }
  simpl in Hlen. rewrite code_points_cons.
  destruct (is_high_surrogate x).
  - destruct r as [|d r'].
    + rewrite bind_cons, elem_of_app.
      intros [Hc|Hc]; [revert Hc; apply Hnew; lia|inversion Hc].
    + destruct (is_low_surrogate d); rewrite bind_cons, elem_of_app.
      * intros [Hc|Hc]; [revert Hc; apply Hnew; lia|].
        destruct (IH r' c ltac:(simpl in Hlen; lia) Hc) as [Hin|];
          [left|right; assumption].
        right. right. exact Hin.
      * intros [Hc|Hc]; [revert Hc; apply Hnew; lia|].
        apply Htail; [lia|exact Hc].
  - destruct (is_low_surrogate x); rewrite bind_cons, elem_of_app.
    + intros [Hc|Hc]; [revert Hc; apply Hnew; lia|].
      apply Htail; [lia|exact Hc].
    + intros [Hc|Hc]; [|apply Htail; [lia|exact Hc]].
      apply utf16_encode_point_units in Hc as [->|];
        [left; left|right; assumption].
Qed.

Lemma strip_start_units (s : jsstring) c : c ∈ strip_start s -> c ∈ s.
Proof.
  induction s as [|x s IH]; simpl; [trivial|].
  destruct (is_c0_or_space x); [|trivial].
  intros H. right. apply IH, H.
Qed.

Lemma url_input_units (s : jsstring) c :
  c ∈ url_input s -> c ∈ s \/ (55296 <= c)%N.
Proof.
  unfold url_input. intros H.
  apply list_elem_of_filter in H as [_ H].
  apply elem_of_reverse, strip_start_units, elem_of_reverse,
    strip_start_units in H.
  eapply USVString_units; [reflexivity|exact H].
Qed.

Lemma cut_fst_units sep (s : jsstring) c : c ∈ (cut sep s).1 -> c ∈ s.
Proof.
  induction s as [|x s IH]; simpl; [trivial|].
  destruct (x =? sep)%N; simpl; [intros H; inversion H|].
  destruct (cut sep s) as [a b]. simpl in *.
  rewrite !elem_of_cons. intros [->|H]; [left; reflexivity|right; apply IH, H].
Qed.

Lemma cut_absent sep (s : jsstring) : sep ∉ s -> cut sep s = (s, None).
Proof.
  induction s as [|x s IH]; simpl; [reflexivity|].
  rewrite not_elem_of_cons. intros [Hx Hs].
  destruct (N.eqb_spec x sep); [congruence|].
  rewrite (IH Hs). reflexivity.
Qed.

Lemma absent_by_check c (s : jsstring) :
  forallb (fun x => negb (x =? c)%N) s = true -> c ∉ s.
Proof.
  induction s as [|x s IH]; simpl; [intros _ H; inversion H|].
  intros [Hx Hs]%andb_prop. rewrite not_elem_of_cons. split; [|auto].
  intros ->. rewrite N.eqb_refl in Hx. discriminate.
Qed.

(** A URL text without [?] has no query. *)
Lemma new_URL_no_query (s : jsstring) :
  63%N ∉ s -> searchParams (new_URL s) = [].
Proof.
  intros Hs. unfold new_URL.
  destruct (cut 35 (url_input s)) as [front fragment] eqn:Hcut.
  assert (63%N ∉ front) as Hfront.
  { intros H. replace front with (cut 35 (url_input s)).1 in H
      by (rewrite Hcut; reflexivity).
    apply cut_fst_units, url_input_units in H as [H|H]; [auto|lia]. }
  rewrite (cut_absent _ _ Hfront). reflexivity.
Qed.

Lemma foldl_searchParams_append name (f : jsstring -> jsstring) pieces :
  forall u,
    searchParams
      (foldl (fun url p => searchParams_append name (f p) url) u pieces)
    = searchParams u ++ ((fun p => (USVString name, USVString (f p))) <$> pieces).
Proof.
  induction pieces as [|p pieces IH]; intros u; simpl.
  - rewrite app_nil_r. reflexivity.
  - rewrite IH. simpl. rewrite <- app_assoc. reflexivity.
Qed.

Lemma getAll_of_named name (vs : list jsstring) u :
  str_eqb name name = true ->
  searchParams u = (fun v => (name, v)) <$> vs ->
  searchParams_getAll name u = vs.
Proof.
  intros Hname Hu. unfold searchParams_getAll. rewrite Hu. clear Hu.
  induction vs as [|v vs IH]; [reflexivity|].
  rewrite fmap_cons, filter_cons_True by exact Hname.
  rewrite fmap_cons. simpl. f_equal. exact IH.
Qed.

(** C9, as stated, fails. With [filter_properties] absent, the URL built
    for the accepted call [{ page_id: "abc?filter_properties=x" }] has a
    [filter_properties] parameter, the one the page identifier carries. And
    with [filter_properties] the empty string, which splits into one (empty)
    piece, the URL has no parameter. *)
Lemma C9_counterexample :
  (accepts host_ok (notion_retrieve_a_page.notionRetrieveAPage some_token)
     page_call_with_query
   = Some (notion_retrieve_a_page.mkArgs (lit "abc?filter_properties=x") None)
   /\ requests
        (execute (notion_retrieve_a_page.notionRetrieveAPage some_token)
           (notion_retrieve_a_page.mkArgs (lit "abc?filter_properties=x") None)
           host_ok)
      = [mkRequest GET
           (mkUrl (lit "https://api.notion.com/v1/pages/abc")
              [(lit "filter_properties", lit "x")] None)
           (notion_headers (lit "secret_token")) None]
   /\ searchParams_getAll (lit "filter_properties")
        (mkUrl (lit "https://api.notion.com/v1/pages/abc")
           [(lit "filter_properties", lit "x")] None)
      = [lit "x"])
  /\ (accepts host_ok (notion_retrieve_a_page.notionRetrieveAPage some_token)
        empty_filter_page_call
      = Some (notion_retrieve_a_page.mkArgs (lit "abc") (Some []))
      /\ split 44 [] = [[]]
      /\ requests
           (execute (notion_retrieve_a_page.notionRetrieveAPage some_token)
              (notion_retrieve_a_page.mkArgs (lit "abc") (Some [])) host_ok)
         = [mkRequest GET
              (mkUrl (lit "https://api.notion.com/v1/pages/abc") [] None)
              (notion_headers (lit "secret_token")) None]).
Proof. repeat split; vm_compute; reflexivity. Qed.

(** C9, amended. For the page-retrieval adapter built with a token, on
    accepted arguments whose [page_id] has no [?]: the adapter sends one
    request; when [filter_properties] is a non-empty string, the query of the
    request URL is one [filter_properties] parameter per piece between
    commas, in order, each holding the piece trimmed (as a URL holds a
    string: converted to a [USVString]), so [k] pieces give [k] parameters;
    when [filter_properties] is absent, or the empty string, the URL has no
    query parameter. *)
Theorem C9_filter_properties_in_query (tok : option jsstring) h input args :
  truthy_opt tok = true ->
  accepts h (notion_retrieve_a_page.notionRetrieveAPage tok) input = Some args ->
  63%N ∉ notion_retrieve_a_page.page_id args ->
  exists req,
    requests (execute (notion_retrieve_a_page.notionRetrieveAPage tok) args h)
    = [req]
    /\ (forall s,
          notion_retrieve_a_page.filter_properties args = Some s -> s <> [] ->
          searchParams (url req)
          = (fun piece => (lit "filter_properties", USVString (trim piece)))
              <$> split 44 s
          /\ searchParams_getAll (lit "filter_properties") (url req)
             = (fun piece => USVString (trim piece)) <$> split 44 s
          /\ length (searchParams_getAll (lit "filter_properties") (url req))
             = length (split 44 s))
    /\ (notion_retrieve_a_page.filter_properties args = None
        \/ notion_retrieve_a_page.filter_properties args = Some [] ->
        searchParams (url req) = []).
Proof.
  intros Htok _ Hpage.
  cbn [execute notion_retrieve_a_page.notionRetrieveAPage].
  rewrite (retrieve_a_page_run tok args h Htok), round_trip_run.
  eexists. split; [reflexivity|]. cbn [url].
  assert (searchParams
            (new_URL (NOTION_API_BASE_URL ++ lit "/pages/"
                      ++ notion_retrieve_a_page.page_id args)) = []) as Hnew.
  { apply new_URL_no_query. rewrite !not_elem_of_app. repeat split.
    - apply absent_by_check. vm_compute. reflexivity.
    - apply absent_by_check. vm_compute. reflexivity.
    - exact Hpage. }
  split.
  - intros s -> Hs. apply truthy_nonempty in Hs. rewrite Hs.
    assert (searchParams
              (foldl
                 (fun url propId =>
                    searchParams_append (lit "filter_properties") (trim propId)
                      url)
                 (new_URL (NOTION_API_BASE_URL ++ lit "/pages/"
                           ++ notion_retrieve_a_page.page_id args))
                 (split 44 s))
            = (fun piece => (lit "filter_properties", USVString (trim piece)))
                <$> split 44 s) as Hparams.
    { rewrite foldl_searchParams_append, Hnew. reflexivity. }
    split; [exact Hparams|].
    assert (searchParams_getAll (lit "filter_properties")
              (foldl
                 (fun url propId =>
                    searchParams_append (lit "filter_properties") (trim propId)
                      url)
                 (new_URL (NOTION_API_BASE_URL ++ lit "/pages/"
                           ++ notion_retrieve_a_page.page_id args))
                 (split 44 s))
            = (fun piece => USVString (trim piece)) <$> split 44 s) as Hall.
    { apply getAll_of_named; [vm_compute; reflexivity|].
      rewrite Hparams, <- list_fmap_compose. reflexivity. }
    split; [exact Hall|]. rewrite Hall, length_fmap. reflexivity.
  - intros [->| ->]; simpl; exact Hnew.
Qed.

Lemma C9_witness :
  exists req,
    requests
      (execute (notion_retrieve_a_page.notionRetrieveAPage some_token)
         (notion_retrieve_a_page.mkArgs (lit "abc")
            (Some (lit "title, iAk8 ,b7dh"))) host_ok)
    = [req]
    /\ searchParams_getAll (lit "filter_properties") (url req)
       = [lit "title"; lit "iAk8"; lit "b7dh"].
Proof.
  destruct (C9_filter_properties_in_query some_token host_ok
              filtered_page_call
              (notion_retrieve_a_page.mkArgs (lit "abc")
                 (Some (lit "title, iAk8 ,b7dh"))))
    as (req & Hreq & Hsome & _).
  - reflexivity.
  - vm_compute. reflexivity.
  - apply absent_by_check. vm_compute. reflexivity.
  - exists req. split; [exact Hreq|].
    destruct (Hsome (lit "title, iAk8 ,b7dh") eq_refl) as (_ & Hall & _).
    + discriminate.
    + rewrite Hall. vm_compute. reflexivity.
Defined.

End ToolFacts.

(** * Further properties *)

(** ** The credential connector along a session *)

Module ConnectorSessions.

Import Connector Samples Sessions.

Ltac case_if :=
  match goal with
  | |- context [if ?b then _ else _] => destruct b eqn:?
  end.

(** One event keeps the configured state in step with the slot. *)
Lemma step_in_sync (chatId : jsstring) e w :
  isConfigured (state w)
  = truthy_opt (localStorage w !! NOTION_TOKEN_LOCAL_STORAGE_KEY) ->
  isConfigured (state (step chatId e w))
  = truthy_opt (localStorage (step chatId e w) !! NOTION_TOKEN_LOCAL_STORAGE_KEY).
Proof.
  intros Hw. destruct e; cbn [step]; try exact Hw.
  - case_if; [|exact Hw].
    simpl. rewrite lookup_delete_eq. reflexivity.
  - case_if; [exact Hw|]. unfold handleSaveSecret. case_if; [|exact Hw].
    simpl. rewrite lookup_insert_eq. simpl. congruence.
  - case_if; [exact Hw|]. unfold handleSaveOnCloud. case_if; exact Hw.
Qed.

(** X1. From mounting onwards, whatever the user does, the configured state
    the component shows is true exactly when the slot holds a non-empty
    string. *)
Theorem configured_in_sync_with_slot (chatId : jsstring)
    (storage : gmap (list N) (list N)) (es : list Event) :
  isConfigured (state (replay chatId es (mount storage)))
  = truthy_opt
      (localStorage (replay chatId es (mount storage))
         !! NOTION_TOKEN_LOCAL_STORAGE_KEY).
Proof.
  assert (forall w,
            isConfigured (state w)
            = truthy_opt (localStorage w !! NOTION_TOKEN_LOCAL_STORAGE_KEY) ->
            isConfigured (state (replay chatId es w))
            = truthy_opt
                (localStorage (replay chatId es w)
                   !! NOTION_TOKEN_LOCAL_STORAGE_KEY)) as Hall.
  { induction es as [|e es IH]; intros w Hw; simpl; [exact Hw|].
    apply IH, step_in_sync, Hw. }
  apply Hall. unfold mount, useEffect. simpl.
  destruct (truthy_opt (storage !! _)) eqn:Hslot; simpl; congruence.
Qed.

Lemma step_other_keys (chatId : jsstring) e w (k : jsstring) :
  k <> NOTION_TOKEN_LOCAL_STORAGE_KEY ->
  localStorage (step chatId e w) !! k = localStorage w !! k.
Proof.
  intros Hk. destruct e; cbn [step]; try reflexivity.
  - case_if; [|reflexivity].
    simpl. rewrite lookup_delete_ne by congruence. reflexivity.
  - case_if; [reflexivity|]. unfold handleSaveSecret. case_if; [|reflexivity].
    simpl. rewrite lookup_insert_ne by congruence. reflexivity.
  - case_if; [reflexivity|]. unfold handleSaveOnCloud. case_if; reflexivity.
Qed.

(** X2. The component reads and writes one key of the storage: every other
    key holds after a session what it held when the component was mounted. *)
Theorem other_keys_untouched (chatId : jsstring)
    (storage : gmap (list N) (list N)) (es : list Event) (k : jsstring) :
  k <> NOTION_TOKEN_LOCAL_STORAGE_KEY ->
  localStorage (replay chatId es (mount storage)) !! k = storage !! k.
Proof.
  intros Hk.
  assert (forall w, localStorage (replay chatId es w) !! k = localStorage w !! k)
    as Hall.
  { induction es as [|e es IH]; intros w; simpl; [reflexivity|].
    rewrite IH. apply step_other_keys, Hk. }
  rewrite Hall. unfold mount, useEffect. simpl.
  destruct (truthy_opt (storage !! _)); reflexivity.
Qed.

Lemma other_keys_untouched_witness :
  localStorage
    (replay (lit "chat-1")
       [Change (lit " s3cr3t "); ClickSave; ClickDisconnect]
       (mount {[lit "theme" := lit "dark"]}))
    !! lit "theme"
  = ({[lit "theme" := lit "dark"]} : gmap (list N) (list N)) !! lit "theme".
Proof.
  apply (other_keys_untouched (lit "chat-1")).
  vm_compute. discriminate.
Defined.

Lemma step_slot_ok (chatId : jsstring) e w :
  slot_ok (localStorage w) -> slot_ok (localStorage (step chatId e w)).
Proof.
  intros Hok. destruct e; cbn [step]; try exact Hok.
  - case_if; [|exact Hok].
    intros tok. simpl. rewrite lookup_delete_eq. discriminate.
  - case_if; [exact Hok|]. unfold handleSaveSecret. case_if; [|exact Hok].
    intros tok. simpl. rewrite lookup_insert_eq. intros [= <-].
    apply ConnectorFacts.trimmed_trim, truthy_nonempty. assumption.
  - case_if; [exact Hok|]. unfold handleSaveOnCloud. case_if; exact Hok.
Qed.

(** X3. If the slot is empty or holds a non-empty string without white
    space at its ends when the component is mounted, it does so after every
    session: nothing the user types, saves or clears puts a blank or
    untrimmed credential in the storage. *)
Theorem slot_trimmed_along_sessions (chatId : jsstring)
    (storage : gmap (list N) (list N)) (es : list Event) :
  slot_ok storage ->
  slot_ok (localStorage (replay chatId es (mount storage))).
Proof.
  intros Hok.
  assert (forall w, slot_ok (localStorage w) ->
                    slot_ok (localStorage (replay chatId es w))) as Hall.
  { induction es as [|e es IH]; intros w Hw; simpl; [exact Hw|].
    apply IH, step_slot_ok, Hw. }
  apply Hall. unfold mount, useEffect. simpl.
  destruct (truthy_opt (storage !! _)); exact Hok.
Qed.

Lemma slot_trimmed_along_sessions_witness :
  slot_ok
    (localStorage
       (replay (lit "chat-1")
          [Change (lit " s3cr3t "); ClickSave; Change (lit "   "); ClickSave]
          (mount ∅))).
Proof.
  apply (slot_trimmed_along_sessions (lit "chat-1")).
  intros tok. rewrite lookup_empty. discriminate.
Defined.

(** X4. The Save button is disabled exactly when the save handler would do
    nothing, and so is the Save on Cloud button for its handler: the
    [disabled] attribute and the handlers' own test agree. *)
Theorem buttons_disabled_iff_handlers_idle (chatId : jsstring) (w : World) :
  (saveDisabled (render chatId (state w)) = true
   <-> handleSaveSecret chatId w = w)
  /\ (cloudDisabled (render chatId (state w)) = true
      <-> handleSaveOnCloud chatId w = w).
Proof.
  assert (forall (l : list jsstring) x, l ++ [x] <> l) as Hgrow.
  { intros l x H. apply (f_equal length) in H.
    rewrite length_app in H. simpl in H. lia. }
  unfold handleSaveSecret, handleSaveOnCloud. simpl.
  destruct (truthy (trim (secretInputValue (state w)))); simpl.
  - split; (split; [discriminate|]); intros H;
      apply (f_equal console) in H; simpl in H; apply Hgrow in H; destruct H.
  - split; split; reflexivity.
Qed.

(** X5. Save on Cloud stores nothing and changes nothing the component
    shows. With a blank input it does not log either; otherwise it logs one
    line, which shows the first five code units of the input field as typed
    (not trimmed) and ends with three dots. *)
Theorem save_on_cloud_only_logs (chatId : jsstring) (w : World) :
  state (handleSaveOnCloud chatId w) = state w
  /\ localStorage (handleSaveOnCloud chatId w) = localStorage w
  /\ (forallb is_white_space (secretInputValue (state w)) = true ->
      console (handleSaveOnCloud chatId w) = console w)
  /\ (forallb is_white_space (secretInputValue (state w)) = false ->
      exists line,
        console (handleSaveOnCloud chatId w) = console w ++ [line]
        /\ ends_with line (take 5 (secretInputValue (state w)) ++ lit "...")
        /\ contains line chatId).
Proof.
  unfold handleSaveOnCloud. rewrite truthy_trim.
  destruct (forallb is_white_space (secretInputValue (state w)));
    cbn [negb state localStorage console].
  - repeat split; try reflexivity. discriminate.
  - repeat split; try reflexivity; try discriminate.
    intros _. eexists. split; [reflexivity|]. split.
    + exists (lit "Simulating save on cloud for Notion Integration Secret for chat "
              ++ chatId ++ lit ": ").
      unfold substring0. rewrite <- !app_assoc. reflexivity.
    + exists (lit "Simulating save on cloud for Notion Integration Secret for chat "),
        (lit ": " ++ substring0 5 (secretInputValue (state w)) ++ lit "...").
      reflexivity.
Qed.

Lemma save_on_cloud_only_logs_witness :
  exists line,
    console (handleSaveOnCloud (lit "chat-1") typed_secret) = [line]
    /\ ends_with line (lit "  sec...").
Proof.
  destruct (save_on_cloud_only_logs (lit "chat-1") typed_secret)
    as (_ & _ & _ & Hlog).
  destruct Hlog as (line & Hline & Hend & _); [reflexivity|].
  exists line. split; [exact Hline|exact Hend].
Defined.

End ConnectorSessions.

(** ** What the adapters send and return *)

Module ToolConduct.

Import Samples Envelope ToolFacts.

#[local] Arguments lit : simpl never.
#[local] Arguments try_catch : simpl never.
#[local] Arguments fetch : simpl never.
#[local] Arguments response_json : simpl never.
#[local] Arguments JSON_parse : simpl never.
#[local] Arguments mbind : simpl never.
#[local] Arguments mret : simpl never.
#[local] Arguments Number_toString : simpl never.
#[local] Arguments new_URL : simpl never.
#[local] Arguments append : simpl never.
#[local] Arguments app : simpl never.

(** A run seen from outside: the adapter refuses with an error result and
    sends nothing, or it makes a round trip, which it may only do when
    [allowed], with the headers made from the token [t]. *)
Inductive Conduct (allowed : bool) (t : jsstring) (h : Host)
    (run : list Request * Settled json) : Prop :=
| Refuses message rest :
    run = ([], Fulfilled (JObject ((lit "error", JString message) :: rest))) ->
    Conduct allowed t h run
| Calls req status_prefix failure :
    allowed = true ->
    headers req = notion_headers t ->
    run = round_trip req status_prefix failure h ->
    Conduct allowed t h run.

Ltac conduct :=
  first
    [ eapply Refuses; reflexivity
    | eapply Calls; cycle 2; [reflexivity | reflexivity | reflexivity]
    | match goal with
      | |- context [if ?b then _ else _] => destruct b
      | |- context [match ?o with Some _ => _ | None => _ end] => destruct o
      | |- context [match ?l with [] => _ | _ :: _ => _ end] => destruct l
      | |- context [let '(_, _) := ?p in _] => destruct p
      end; cbn; conduct ].

Ltac guarded tok := destruct (truthy_opt tok); cbn; conduct.

Lemma conduct_built_with factory :
  In factory built_with_token ->
  forall tok (args : Args (factory tok)) h,
    Conduct (truthy_opt tok) (template tok) h (execute (factory tok) args h).
Proof.
  intros Hin tok. unfold built_with_token in Hin. simpl in Hin.
  repeat (destruct Hin as [<-|Hin]; [intros args h; cbn in args |- * |]);
    [..|destruct Hin].
  - unfold notion_retrieve_a_block.execute. guarded tok.
  - unfold notion_get_users.execute. guarded tok.
  - unfold notion_get_user.execute. guarded tok.
  - unfold notion_get_self.execute. guarded tok.
  - unfold notion_retrieve_a_database.execute. guarded tok.
  - unfold notion_delete_a_block.execute. guarded tok.
  - unfold notion_create_a_comment.execute. guarded tok.
  - unfold notion_update_a_block.execute.
    destruct args as [block_id [archived|] [|[key value] rest]]; guarded tok.
  - unfold notion_patch_page.execute. guarded tok.
  - unfold notion_create_a_database.execute.
    destruct (truthy_opt tok); cbn [negb]; [|conduct].
    rewrite await_JSON_parse. destruct (host_JSON_parse h _); conduct.
  - unfold notion_post_database_query.execute. guarded tok.
  - unfold notion_patch_block_children.execute. guarded tok.
  - unfold notion_retrieve_a_page.execute. guarded tok.
  - unfold notion_get_block_children.execute. guarded tok.
  - unfold notion_retrieve_a_comment.execute. guarded tok.
  - unfold notion_post_page.execute. guarded tok.
  - unfold notion_update_a_database.execute. guarded tok.
  - unfold notion_retrieve_a_page_property.execute. guarded tok.
Qed.

(** The adapters that take the token as an argument always make the round
    trip, with the argument as the token. *)
Lemma post_search_round_trip args h :
  exists req status_prefix failure,
    notion_post_search.execute args h = round_trip req status_prefix failure h
    /\ req
       = mkRequest POST (mkUrl (lit "https://api.notion.com/v1/search") [] None)
           (notion_headers (notion_post_search.notionToken args)) (body req).
Proof.
  unfold notion_post_search.execute.
  eexists _, _, _. split; reflexivity.
Qed.

Lemma get_user_by_argument_round_trip args h :
  exists req status_prefix failure,
    notion_get_user_by_argument.execute args h
    = round_trip req status_prefix failure h
    /\ req
       = mkRequest GET
           (mkUrl (lit "https://api.notion.com/v1/users/"
                   ++ notion_get_user_by_argument.user_id args) [] None)
           (notion_headers (notion_get_user_by_argument.notionToken args)) None.
Proof.
  unfold notion_get_user_by_argument.execute.
  eexists _, _, _. split; [reflexivity|].
  unfold template_url, NOTION_API_BASE_URL. rewrite app_assoc. reflexivity.
Qed.

Lemma adapters_conduct a :
  In a adapters ->
  forall tok (args : Args (bound a tok)) h,
    exists allowed t, Conduct allowed t h (execute (bound a tok) args h).
Proof.
  intros Hin tok.
  unfold adapters, built_with_token, token_as_argument in Hin. simpl in Hin.
  do 18 (destruct Hin as [<-|Hin];
         [intros args h; eexists _, _; cbn [bound] in args |- *;
          eapply conduct_built_with; unfold built_with_token; simpl; auto 20
         |]).
  destruct Hin as [<-|[<-|[]]]; intros args h; cbn in args |- *.
  - destruct (post_search_round_trip args h) as (req & sp & fm & Hrun & Hreq).
    exists true, (notion_post_search.notionToken args).
    eapply Calls; [reflexivity| |exact Hrun]. rewrite Hreq. reflexivity.
  - destruct (get_user_by_argument_round_trip args h)
      as (req & sp & fm & Hrun & Hreq).
    exists true, (notion_get_user_by_argument.notionToken args).
    eapply Calls; [reflexivity| |exact Hrun]. rewrite Hreq. reflexivity.
Qed.

(** X6. An adapter built with a token sends a request only when the token
    is a non-empty string, and every request it sends carries that token as
    its bearer authorization, with the API version and the JSON content
    type. *)
Theorem requests_carry_the_token factory :
  In factory built_with_token ->
  forall (tok : option jsstring) (args : Args (factory tok)) h req,
    In req (requests (execute (factory tok) args h)) ->
    exists t,
      tok = Some t /\ t <> []
      /\ headers req
         = [(lit "Authorization", lit "Bearer " ++ t);
            (lit "Notion-Version", lit "2022-06-28");
            (lit "Content-Type", lit "application/json")].
Proof.
  intros Hin tok args h req Hreq.
  destruct (conduct_built_with factory Hin tok args h)
    as [message rest Hrun|req' sp fm Htok Hheaders Hrun];
    rewrite Hrun in Hreq.
  - destruct Hreq.
  - rewrite round_trip_run in Hreq. destruct Hreq as [<-|[]].
    destruct tok as [[|c t]|]; try discriminate.
    exists (c :: t). repeat split; [discriminate|exact Hheaders].
Qed.

Lemma requests_carry_the_token_witness :
  exists t,
    some_token = Some t /\ t <> []
    /\ headers
         (mkRequest GET
            (mkUrl (lit "https://api.notion.com/v1/blocks/b1") [] None)
            (notion_headers (lit "secret_token")) None)
       = [(lit "Authorization", lit "Bearer " ++ t);
          (lit "Notion-Version", lit "2022-06-28");
          (lit "Content-Type", lit "application/json")].
Proof.
  apply (requests_carry_the_token notion_retrieve_a_block.notionRetrieveABlock)
    with (args := notion_retrieve_a_block.mkArgs (lit "b1")) (h := host_ok).
  - unfold built_with_token. simpl. auto.
  - vm_compute. left. reflexivity.
Defined.

(** X7. The two adapters that take the token as an argument have no test
    on it: whatever the arguments, the empty token included, they send
    exactly one request, to their fixed address, with the argument as the
    bearer token. *)
Theorem token_as_argument_always_sends :
  (forall args h,
     exists req,
       requests (execute notion_post_search.notionPostSearch args h) = [req]
       /\ method req = POST
       /\ url req = mkUrl (lit "https://api.notion.com/v1/search") [] None
       /\ headers req = notion_headers (notion_post_search.notionToken args))
  /\ (forall args h,
        exists req,
          requests (execute notion_get_user_by_argument.notionGetUser args h)
          = [req]
          /\ method req = GET
          /\ url req
             = mkUrl (lit "https://api.notion.com/v1/users/"
                      ++ notion_get_user_by_argument.user_id args) [] None
          /\ headers req
             = notion_headers (notion_get_user_by_argument.notionToken args)).
Proof.
  split; intros args h; cbn [execute notion_post_search.notionPostSearch
                               notion_get_user_by_argument.notionGetUser].
  - destruct (post_search_round_trip args h) as (req & sp & fm & -> & Hreq).
    exists req. rewrite round_trip_run. split; [reflexivity|].
    rewrite Hreq. repeat split.
  - destruct (get_user_by_argument_round_trip args h)
      as (req & sp & fm & -> & Hreq).
    exists req. rewrite round_trip_run. split; [reflexivity|].
    rewrite Hreq. repeat split.
Qed.

(** X8. For every adapter: when the request it sent is answered with a
    status in 200..299 and a body that decodes as JSON, the adapter returns
    the decoded body, unchanged and unwrapped. *)
Theorem success_passed_through a :
  In a adapters ->
  forall (tok : option jsstring) (args : Args (bound a tok)) h req response data,
    requests (execute (bound a tok) args h) = [req] ->
    host_fetch h req = Fulfilled response ->
    ok response = true ->
    json_body response = Fulfilled data ->
    outcome (execute (bound a tok) args h) = Fulfilled data.
Proof.
  intros Hin tok args h req response data.
  destruct (adapters_shape a Hin tok args h) as [v ->|req' sp op ->];
    [discriminate|].
  rewrite round_trip_run. unfold requests, outcome. simpl.
  intros [= <-] -> Hok ->. rewrite Hok. reflexivity.
Qed.

Lemma success_passed_through_witness :
  outcome
    (execute (notion_retrieve_a_block.notionRetrieveABlock some_token)
       (notion_retrieve_a_block.mkArgs (lit "b1")) host_ok)
  = Fulfilled (JObject []).
Proof.
  apply (success_passed_through
           (BuiltWith notion_retrieve_a_block.notionRetrieveABlock))
    with (req := mkRequest GET
                   (mkUrl (lit "https://api.notion.com/v1/blocks/b1") [] None)
                   (notion_headers (lit "secret_token")) None)
         (response := mkResponse 200 (Fulfilled (JObject []))).
  - unfold adapters, built_with_token. simpl. auto.
  - vm_compute. reflexivity.
  - reflexivity.
  - reflexivity.
  - reflexivity.
Defined.

(** X9. For every adapter: when the body of the response to its request
    does not decode as JSON, the adapter returns the transport-failure
    result with the decoder's error text, whatever the status: a 200 with a
    broken body and a 502 with an HTML page give the same kind of result,
    and the status is not reported. *)
Theorem undecodable_body_is_transport_failure a :
  In a adapters ->
  forall (tok : option jsstring) (args : Args (bound a tok)) h req response e,
    requests (execute (bound a tok) args h) = [req] ->
    host_fetch h req = Fulfilled response ->
    json_body response = Rejected e ->
    exists operation,
      outcome (execute (bound a tok) args h)
      = Fulfilled
          (error_details (transport_failure operation)
             (JString (error_text e))).
Proof.
  intros Hin tok args h req response e.
  destruct (adapters_shape a Hin tok args h) as [v ->|req' sp op ->];
    [discriminate|].
  rewrite round_trip_run. unfold requests, outcome. simpl.
  intros [= <-] -> ->. eexists. reflexivity.
Qed.

Lemma undecodable_body_is_transport_failure_witness :
  exists operation,
    outcome
      (execute (notion_retrieve_a_block.notionRetrieveABlock some_token)
         (notion_retrieve_a_block.mkArgs (lit "b1")) host_bad_gateway)
    = Fulfilled
        (error_details (transport_failure operation)
           (JString (lit "Unexpected token < in JSON at position 0"))).
Proof.
  apply (undecodable_body_is_transport_failure
           (BuiltWith notion_retrieve_a_block.notionRetrieveABlock)
           ltac:(unfold adapters, built_with_token; simpl; auto)
           some_token (notion_retrieve_a_block.mkArgs (lit "b1"))
           host_bad_gateway
           (mkRequest GET
              (mkUrl (lit "https://api.notion.com/v1/blocks/b1") [] None)
              (notion_headers (lit "secret_token")) None)
           (mkResponse 502
              (Rejected
                 (ThrownError (lit "Unexpected token < in JSON at position 0"))))
           (ThrownError (lit "Unexpected token < in JSON at position 0"))).
  - vm_compute. reflexivity.
  - reflexivity.
  - reflexivity.
Defined.

(** X10. Every result of every adapter is either the decoded body of a
    response with a status in 200..299 to the one request it sent, or an
    error result, an object whose first member is [error] with a string. *)
Theorem results_are_body_or_error a :
  In a adapters ->
  forall (tok : option jsstring) (args : Args (bound a tok)) h,
    exists v,
      outcome (execute (bound a tok) args h) = Fulfilled v
      /\ ((exists req response,
             requests (execute (bound a tok) args h) = [req]
             /\ host_fetch h req = Fulfilled response
             /\ ok response = true
             /\ json_body response = Fulfilled v)
          \/ is_error_result v).
Proof.
  intros Hin tok args h.
  destruct (adapters_conduct a Hin tok args h)
    as (allowed & t & [message rest ->|req sp fm _ _ ->]).
  - eexists. split; [reflexivity|]. right. eexists _, _. reflexivity.
  - rewrite round_trip_run. unfold requests, outcome. simpl.
    destruct (host_fetch h req) as [response|e] eqn:Hfetch.
    + destruct (json_body response) as [data|e] eqn:Hbody.
      * destruct (ok response) eqn:Hok.
        -- exists data. split; [reflexivity|]. left.
           exists req, response. auto.
        -- eexists. split; [reflexivity|]. right. eexists _, _. reflexivity.
      * eexists. split; [reflexivity|]. right. eexists _, _. reflexivity.
    + eexists. split; [reflexivity|]. right. eexists _, _. reflexivity.
Qed.

Lemma results_are_body_or_error_witness :
  exists v,
    outcome
      (execute (notion_retrieve_a_block.notionRetrieveABlock some_token)
         (notion_retrieve_a_block.mkArgs (lit "b1")) host_not_found)
    = Fulfilled v
    /\ ((exists req response,
           requests
             (execute (notion_retrieve_a_block.notionRetrieveABlock some_token)
                (notion_retrieve_a_block.mkArgs (lit "b1")) host_not_found)
           = [req]
           /\ host_fetch host_not_found req = Fulfilled response
           /\ ok response = true
           /\ json_body response = Fulfilled v)
        \/ is_error_result v).
Proof.
  exact (results_are_body_or_error
           (BuiltWith notion_retrieve_a_block.notionRetrieveABlock)
           ltac:(unfold adapters, built_with_token; simpl; auto)
           some_token (notion_retrieve_a_block.mkArgs (lit "b1"))
           host_not_found).
Defined.

End ToolConduct.

(** ** What the schemas let through *)

Module SchemaFacts.

Import Samples ZodParts.

Lemma str_eqb_eq (a b : jsstring) : str_eqb a b = true <-> a = b.
Proof.
  revert b. induction a as [|x a IH]; intros [|y b]; simpl;
    try (split; congruence).
  rewrite andb_true_iff, N.eqb_eq, IH. split; [intros [-> ->]|intros [= -> ->]];
    auto.
Qed.

Lemma str_eqb_refl (a : jsstring) : str_eqb a a = true.
Proof. apply str_eqb_eq. reflexivity. Qed.

(** An object schema on an object: the strictness test, then the fields. *)
Lemma parse_object url strict shape data :
  parse url (ZObject strict shape) (Some (JObject data))
  = if strict && negb (forallb (fun kv => shape_knows (fst kv) shape) data)
    then None
    else match object_fields url data shape with
         | Some out => Some (Some (JObject out))
         | None => None
         end.
Proof. reflexivity. Qed.

Lemma parse_object_inv url strict shape input parsed :
  parse url (ZObject strict shape) (Some input) = Some (Some parsed) ->
  exists data out,
    input = JObject data /\ parsed = JObject out
    /\ object_fields url data shape = Some out.
Proof.
  destruct input as [| | | | |data]; try (simpl; discriminate).
  rewrite parse_object. destruct (_ && _); [discriminate|].
  destruct (object_fields url data shape) as [out|] eqn:Hfields;
    [|discriminate].
  intros [= <-]. exists data, out. auto.
Qed.

(** The output has no key outside the shape. *)
Lemma object_fields_keys url data shape : forall out k,
  object_fields url data shape = Some out ->
  shape_knows k shape = false -> member k out = None.
Proof.
  induction shape as [|[k0 s0] rest IH]; intros out k; simpl.
  - intros [= <-] _. reflexivity.
  - destruct (parse url s0 (member k0 data)) as [[v|]|]; [| |discriminate];
      destruct (object_fields url data rest) as [out'|]; try discriminate;
      intros [= <-] [Hk Hrest]%orb_false_elim; simpl; rewrite ?Hk; eauto.
Qed.

(** The member the output has for a key of the shape is what that key's
    schema gives on the input's member. *)
Lemma object_fields_member url data shape : forall out k sk,
  object_fields url data shape = Some out ->
  distinct_keys shape = true ->
  In (k, sk) shape ->
  parse url sk (member k data) = Some (member k out).
Proof.
  induction shape as [|[k0 s0] rest IH]; intros out k sk; simpl; [tauto|].
  destruct (parse url s0 (member k0 data)) as [r0|] eqn:H0; [|discriminate].
  destruct (object_fields url data rest) as [out'|] eqn:Hrest;
    [|destruct r0; discriminate].
  intros Hout [Hfresh Hdistinct]%andb_prop Hin.
  apply negb_true_iff in Hfresh.
  assert (member k0 out = r0) as Hhead.
  { destruct r0 as [v|]; injection Hout as <-; simpl.
    - rewrite str_eqb_refl. reflexivity.
    - eapply object_fields_keys; eassumption. }
  destruct Hin as [[= -> ->]|Hin].
  - rewrite Hhead. exact H0.
  - assert (str_eqb k k0 = false) as Hne.
    { destruct (str_eqb k k0) eqn:E; [|reflexivity].
      apply str_eqb_eq in E as ->.
      assert (shape_knows k0 rest = true) as Hknown; [|congruence].
      clear -Hin. induction rest as [|[k1 s1] rest IH]; [destruct Hin|].
      simpl. destruct Hin as [[= -> ->]|Hin].
      - rewrite str_eqb_refl. reflexivity.
      - rewrite (IH Hin). apply orb_true_r. }
    rewrite (IH out' k sk eq_refl Hdistinct Hin).
    destruct r0 as [v|]; injection Hout as <-; simpl; rewrite ?Hne;
      reflexivity.
Qed.

(** Both together, for a tool whose schema is an object schema. *)
Lemma parse_object_member url strict shape input parsed k sk :
  parse url (ZObject strict shape) (Some input) = Some (Some parsed) ->
  distinct_keys shape = true ->
  In (k, sk) shape ->
  parse url sk (field k input) = Some (field k parsed).
Proof.
  intros (data & out & -> & -> & Hfields)%parse_object_inv Hd Hin.
  simpl. eapply object_fields_member; eassumption.
Qed.

Lemma parse_array url min max element items :
  parse url (ZArray min max element) (Some (JArray items))
  = if within min max (length items)
    then match array_elements url element items with
         | Some out => Some (Some (JArray out))
         | None => None
         end
    else None.
Proof. reflexivity. Qed.

Lemma parse_array_inv url min max element input r :
  parse url (ZArray min max element) input = Some r ->
  exists items out,
    input = Some (JArray items) /\ r = Some (JArray out)
    /\ within min max (length items) = true
    /\ array_elements url element items = Some out.
Proof.
  destruct input as [[| | | |items|]|]; try (simpl; discriminate).
  rewrite parse_array. destruct (within _ _ _) eqn:Hw; [|discriminate].
  destruct (array_elements url element items) as [out|] eqn:He;
    [|discriminate].
  intros [= <-]. exists items, out. auto.
Qed.

Lemma array_elements_each url element : forall items out,
  array_elements url element items = Some out ->
  Forall2 (fun x v => parse url element (Some x) = Some (Some v)) items out.
Proof.
  induction items as [|x items IH]; intros out; simpl.
  - intros [= <-]. constructor.
  - destruct (parse url element (Some x)) as [[v|]|] eqn:Hx; try discriminate.
    destruct (array_elements url element items) as [out'|]; [|discriminate].
    intros [= <-]. constructor; auto.
Qed.

Lemma parse_optional url inner input r :
  parse url (ZOptional inner) input = Some r ->
  (input = None /\ r = None)
  \/ (exists x, input = Some x /\ parse url inner input = Some r).
Proof. destruct input as [x|]; simpl; [eauto|intros [= <-]; auto]. Qed.

Lemma parse_refine url inner check input r :
  parse url (ZRefine inner check) input = Some r ->
  exists v, r = Some v /\ parse url inner input = Some (Some v)
            /\ check v = true.
Proof.
  simpl. destruct (parse url inner input) as [[v|]|]; try discriminate.
  destruct (check v) eqn:Hc; [|discriminate]. intros [= <-]. eauto.
Qed.

End SchemaFacts.

(** ** Single adapters *)

Module AdapterFacts.

Import Samples ZodParts Bodies SchemaFacts ToolFacts.

#[local] Arguments lit : simpl never.
#[local] Arguments try_catch : simpl never.
#[local] Arguments fetch : simpl never.
#[local] Arguments response_json : simpl never.
#[local] Arguments JSON_parse : simpl never.
#[local] Arguments mbind : simpl never.
#[local] Arguments mret : simpl never.
#[local] Arguments Number_toString : simpl never.
#[local] Arguments app : simpl never.

Lemma accepts_inv h t input args :
  accepts h t input = Some args ->
  exists parsed,
    parse (host_url_parses h) (parameters t) (Some input) = Some (Some parsed)
    /\ typed t parsed = Some args.
Proof.
  unfold accepts.
  destruct (parse _ _ _) as [[parsed|]|]; try discriminate. eauto.
Qed.





Lemma parse_record_inv url value input r :
  parse url (ZRecord value) input = Some r ->
  exists out, r = Some (JObject out).
Proof.
  destruct input as [[| | | | |data]|]; try (simpl; discriminate).
  simpl. destruct (_ data) as [out|]; [|discriminate].
  intros [= <-]. eauto.
Qed.

(** An optional array or record that was accepted is absent on both sides,
    or present and truthy. *)
Lemma optional_array_truthy url min max element input r :
  parse url (ZOptional (ZArray min max element)) input = Some r ->
  defined r = defined input /\ truthy_value r = defined r.
Proof.
  intros [[-> ->]|(x & -> & H)]%parse_optional; [auto|].
  apply parse_array_inv in H as (items & out & _ & -> & _). auto.
Qed.

Lemma optional_record_truthy url value input r :
  parse url (ZOptional (ZRecord value)) input = Some r ->
  defined r = defined input /\ truthy_value r = defined r.
Proof.
  intros [[-> ->]|(x & -> & H)]%parse_optional; [auto|].
  apply parse_record_inv in H as (out & ->). auto.
Qed.

Lemma assign_if_named k v o :
  truthy_value v = defined v ->
  (forall x, In x o -> str_eqb k (fst x) = false) ->
  assign_if (truthy_value v) k v o = o ++ named k v.
Proof.
  intros Ht Hk. destruct v as [x|]; simpl; [|symmetry; apply app_nil_r].
  simpl in Ht. rewrite Ht. clear Ht.
  induction o as [|[k' v'] o IH]; [reflexivity|].
  pose proof (Hk (k', v') (or_introl eq_refl)) as E. simpl in *.
  rewrite E, <- app_comm_cons. f_equal. apply IH. intros y Hy. apply Hk. right. exact Hy.
Qed.

(** X12. An accepted update of a database that names none of [title],
    [description] and [properties] is refused without a request; any other
    one is sent as one PATCH whose body holds exactly the named ones, in
    that order. *)
Theorem update_a_database_needs_a_change
    (tok : option jsstring) h input
    (args : Args (notion_update_a_database.notionUpdateADatabase tok)) :
  truthy_opt tok = true ->
  accepts h (notion_update_a_database.notionUpdateADatabase tok) input
  = Some args ->
  let changes :=
    named (lit "title") (field (lit "title") input)
    ++ named (lit "description") (field (lit "description") input)
    ++ named (lit "properties") (field (lit "properties") input) in
  exists sent,
    length sent = length changes
    /\ fst <$> sent = fst <$> changes
    /\ execute (notion_update_a_database.notionUpdateADatabase tok) args
       = match sent with
         | [] =>
             mret (error_only
                     (lit "At least one property (title, description, or properties) must be provided to update the database."))
         | _ :: _ =>
             round_trip
               (mkRequest PATCH
                  (template_url
                     (NOTION_API_BASE_URL ++ lit "/databases/"
                      ++ notion_update_a_database.database_id args) [])
                  (notion_headers (template tok))
                  (Some (JObject sent)))
               (lit "Notion API request failed with status ")
               (lit "Failed to execute Notion update database due to a network or unexpected error.")
         end.
Proof.
  intros Htok (parsed & Hparse & Htyped)%accepts_inv.
  cbn [typed notion_update_a_database.notionUpdateADatabase] in Htyped.
  unfold notion_update_a_database.typed, optional_value_arg in Htyped.
  destruct (string_arg (lit "database_id") parsed) as [id|]; [|discriminate].
  injection Htyped as <-.
  cbn [parameters notion_update_a_database.notionUpdateADatabase] in Hparse.
  pose proof (fun k sk => parse_object_member _ _ _ _ _ k sk Hparse eq_refl)
    as Hmember.
  pose proof (Hmember (lit "title") _ ltac:(simpl; auto)) as Ht.
  pose proof (Hmember (lit "description") _ ltac:(simpl; auto 10)) as Hd.
  pose proof (Hmember (lit "properties") _ ltac:(simpl; auto 10)) as Hp.
  apply optional_array_truthy in Ht as [Ht1 Ht2].
  apply optional_array_truthy in Hd as [Hd1 Hd2].
  apply optional_record_truthy in Hp as [Hp1 Hp2].
  exists (named (lit "title") (field (lit "title") parsed)
          ++ named (lit "description") (field (lit "description") parsed)
          ++ named (lit "properties") (field (lit "properties") parsed)).
  cbn [execute notion_update_a_database.notionUpdateADatabase].
  unfold notion_update_a_database.execute.
  rewrite Htok.
  cbn [negb notion_update_a_database.title
       notion_update_a_database.description
       notion_update_a_database.properties
       notion_update_a_database.database_id].
  destruct (field (lit "title") parsed) as [t|],
    (field (lit "title") input) as [t'|]; try discriminate;
  destruct (field (lit "description") parsed) as [d|],
    (field (lit "description") input) as [d'|]; try discriminate;
  destruct (field (lit "properties") parsed) as [p|],
    (field (lit "properties") input) as [p'|]; try discriminate;
  rewrite ?Ht2, ?Hd2, ?Hp2; repeat split; reflexivity.
Qed.

Lemma update_a_database_needs_a_change_witness :
  exists sent,
    length sent = 1%nat
    /\ fst <$> sent = [lit "title"]
    /\ notion_update_a_database.execute some_token
         (notion_update_a_database.mkArgs (lit "d1")
            (field (lit "title") retitle_call) None None)
       = match sent with
         | [] =>
             mret (error_only
                     (lit "At least one property (title, description, or properties) must be provided to update the database."))
         | _ :: _ =>
             round_trip
               (mkRequest PATCH
                  (template_url
                     (NOTION_API_BASE_URL ++ lit "/databases/" ++ lit "d1") [])
                  (notion_headers (template some_token))
                  (Some (JObject sent)))
               (lit "Notion API request failed with status ")
               (lit "Failed to execute Notion update database due to a network or unexpected error.")
         end.
Proof.
  exact (update_a_database_needs_a_change some_token host_ok retitle_call
           (notion_update_a_database.mkArgs (lit "d1")
              (field (lit "title") retitle_call) None None)
           eq_refl eq_refl).
Defined.

Lemma rest_of_keys data kv :
  In kv (notion_update_a_block.rest_of data) ->
  str_eqb (fst kv) (lit "archived") = false.
Proof.
  destruct data as [| | | | |members]; simpl; try tauto.
  intros H%list_elem_of_In%list_elem_of_filter. tauto.
Qed.

(** X13. Arguments the update-a-block schema accepts carry [archived], one
    block update, or both, and never two updates; so with a token the call is
    always one PATCH of the block, whose body is [archived] (when given)
    followed by the update, and the adapter's own no-operation error cannot
    occur. *)
Theorem update_a_block_always_patches
    (tok : option jsstring) h input
    (args : Args (notion_update_a_block.notionUpdateABlock tok)) :
  truthy_opt tok = true ->
  accepts h (notion_update_a_block.notionUpdateABlock tok) input
  = Some args ->
  (length (notion_update_a_block.blockSpecificUpdates args) <= 1)%nat
  /\ (defined (notion_update_a_block.archived args) = true
      \/ length (notion_update_a_block.blockSpecificUpdates args) = 1%nat)
  /\ execute (notion_update_a_block.notionUpdateABlock tok) args
     = round_trip
         (mkRequest PATCH
            (template_url
               (NOTION_API_BASE_URL ++ lit "/blocks/"
                ++ notion_update_a_block.block_id args) [])
            (notion_headers (template tok))
            (Some
               (JObject
                  (named (lit "archived")
                     (jbool_opt (notion_update_a_block.archived args))
                   ++ notion_update_a_block.blockSpecificUpdates args))))
         (lit "Notion API request (update-a-block) failed with status ")
         (lit "Failed to execute Notion update-a-block due to a network or unexpected error.").
Proof.
  intros Htok (parsed & Hparse & Htyped)%accepts_inv.
  cbn [parameters notion_update_a_block.notionUpdateABlock] in Hparse.
  apply parse_refine in Hparse as (v & [= <-] & _ & Hcheck).
  cbn [typed notion_update_a_block.notionUpdateABlock] in Htyped.
  unfold notion_update_a_block.typed in Htyped.
  destruct (string_arg (lit "block_id") parsed) as [id|]; [|discriminate].
  destruct (optional_boolean_arg (lit "archived") parsed) as [arch|] eqn:Harch;
    [|discriminate].
  injection Htyped as <-.
  cbn [notion_update_a_block.blockSpecificUpdates
       notion_update_a_block.archived notion_update_a_block.block_id].
  assert (defined (field (lit "archived") parsed) = defined arch) as Hdef.
  { unfold optional_boolean_arg in Harch.
    destruct (field (lit "archived") parsed) as [[]|]; try discriminate;
      injection Harch as <-; reflexivity. }
  cbv beta zeta in Hcheck. rewrite Hdef, !length_fmap in Hcheck.
  pose proof (rest_of_keys parsed) as Hkeys.
  cbn [execute notion_update_a_block.notionUpdateABlock].
  unfold notion_update_a_block.execute.
  rewrite Htok.
  cbn [negb notion_update_a_block.blockSpecificUpdates
       notion_update_a_block.archived notion_update_a_block.block_id].
  destruct (notion_update_a_block.rest_of parsed) as [|[k x] [|more]];
    destruct arch as [b|]; simpl in Hcheck; try discriminate.
  - split; [simpl; lia|]. split; [left; reflexivity|reflexivity].
  - split; [simpl; lia|]. split; [left; reflexivity|].
    pose proof (Hkeys (k, x) (or_introl eq_refl)) as E. simpl in E.
    cbn [jbool_opt fmap option_fmap option_map assign_if assign named].
    rewrite E. reflexivity.
  - split; [simpl; lia|]. split; [right; reflexivity|reflexivity].
Qed.

Lemma update_a_block_always_patches_witness :
  (length (notion_update_a_block.rest_of check_to_do_call) <= 1)%nat
  /\ (defined (@None bool) = true
      \/ length (notion_update_a_block.rest_of check_to_do_call) = 1%nat)
  /\ notion_update_a_block.execute some_token
       (notion_update_a_block.mkArgs (lit "b1") None
          (notion_update_a_block.rest_of check_to_do_call))
     = round_trip
         (mkRequest PATCH
            (template_url
               (NOTION_API_BASE_URL ++ lit "/blocks/" ++ lit "b1") [])
            (notion_headers (template some_token))
            (Some
               (JObject
                  (named (lit "archived") (jbool_opt None)
                   ++ notion_update_a_block.rest_of check_to_do_call))))
         (lit "Notion API request (update-a-block) failed with status ")
         (lit "Failed to execute Notion update-a-block due to a network or unexpected error.").
Proof.
  exact (update_a_block_always_patches some_token host_ok check_to_do_call
           (notion_update_a_block.mkArgs (lit "b1") None
              (notion_update_a_block.rest_of check_to_do_call))
           eq_refl eq_refl).
Defined.

(** X14. With a token, create-a-database first decodes [propertiesJson]:
    when that throws, the call ends with the invalid-JSON error result and no
    request; otherwise it is one POST of the parent, the decoded properties
    and the title when one was given. *)
Theorem create_a_database_decodes_first
    (tok : option jsstring) h input
    (args : Args (notion_create_a_database.notionCreateADatabase tok)) :
  truthy_opt tok = true ->
  accepts h (notion_create_a_database.notionCreateADatabase tok) input
  = Some args ->
  execute (notion_create_a_database.notionCreateADatabase tok) args h
  = match host_JSON_parse h (notion_create_a_database.propertiesJson args) with
    | Rejected e =>
        ([], Fulfilled
               (error_details notion_create_a_database.invalid_properties_json
                  (JString (error_text e))))
    | Fulfilled parsedProperties =>
        round_trip
          (mkRequest POST
             (template_url (NOTION_API_BASE_URL ++ lit "/databases") [])
             (notion_headers (template tok))
             (Some
                (JObject
                   ([(lit "parent", notion_create_a_database.parent args);
                     (lit "properties", parsedProperties)]
                    ++ named (lit "title")
                         (notion_create_a_database.title args)))))
          (lit "Notion API request failed with status ")
          (lit "Failed to execute Notion create a database due to a network or unexpected error.")
          h
    end.
Proof.
  intros Htok (parsed & Hparse & Htyped)%accepts_inv.
  cbn [typed notion_create_a_database.notionCreateADatabase] in Htyped.
  unfold notion_create_a_database.typed, optional_value_arg, value_arg
    in Htyped.
  destruct (field (lit "parent") parsed) as [parent|]; [|discriminate].
  destruct (string_arg (lit "propertiesJson") parsed) as [text|];
    [|discriminate].
  injection Htyped as <-.
  cbn [parameters notion_create_a_database.notionCreateADatabase] in Hparse.
  pose proof (parse_object_member _ _ _ _ _ (lit "title") _ Hparse eq_refl
                ltac:(simpl; auto)) as [_ Ht]%optional_array_truthy.
  cbn [execute notion_create_a_database.notionCreateADatabase].
  unfold notion_create_a_database.execute.
  rewrite Htok. cbn [negb]. rewrite await_JSON_parse.
  cbn [notion_create_a_database.propertiesJson
       notion_create_a_database.parent notion_create_a_database.title].
  destruct (host_JSON_parse h text) as [properties|e]; [|reflexivity].
  destruct (field (lit "title") parsed) as [t|]; [|reflexivity].
  rewrite Ht. reflexivity.
Qed.

Lemma create_a_database_decodes_first_witness :
  notion_create_a_database.execute some_token
    (notion_create_a_database.mkArgs
       (JObject [(lit "page_id", JString (lit "p1"));
                 (lit "type", JString (lit "page_id"))])
       (lit "{") None)
    host_ok
  = ([], Fulfilled
           (error_details notion_create_a_database.invalid_properties_json
              (JString (lit "Unexpected end of JSON input")))).
Proof.
  exact (create_a_database_decodes_first some_token host_ok
           create_database_call
           (notion_create_a_database.mkArgs
              (JObject [(lit "page_id", JString (lit "p1"));
                        (lit "type", JString (lit "page_id"))])
              (lit "{") None)
           eq_refl eq_refl).
Defined.

Lemma optional_refined_object_truthy url strict shape check input r :
  parse url (ZOptional (ZRefine (ZObject strict shape) check)) input = Some r ->
  truthy_value r = defined r.
Proof.
  intros [[-> ->]|(x & -> & H)]%parse_optional; [auto|].
  apply parse_refine in H as (v & -> & H & _).
  apply parse_object_inv in H as (data & out & _ & -> & _). auto.
Qed.

(** X15. With a token, an accepted database query is one POST to the
    database's [query] path whose body holds, in this order, the filter, the
    sorts, a non-empty cursor, the page size (a zero too), [archived] and
    [in_trash], each only when given; [filter_properties] is in neither the
    body nor the URL. *)
Theorem database_query_body
    (tok : option jsstring) h input
    (args : Args (notion_post_database_query.notionPostDatabaseQuery tok)) :
  truthy_opt tok = true ->
  accepts h (notion_post_database_query.notionPostDatabaseQuery tok) input
  = Some args ->
  execute (notion_post_database_query.notionPostDatabaseQuery tok) args
  = round_trip
      (mkRequest POST
         (template_url
            (NOTION_API_BASE_URL ++ lit "/databases/"
             ++ notion_post_database_query.database_id args
             ++ lit "/query") [])
         (notion_headers (template tok))
         (Some
            (JObject
               (named (lit "filter") (notion_post_database_query.filter args)
                ++ named (lit "sorts") (notion_post_database_query.sorts args)
                ++ named (lit "start_cursor")
                     (jstring_opt
                        (given (notion_post_database_query.start_cursor args)))
                ++ named (lit "page_size")
                     (jinteger_opt
                        (notion_post_database_query.page_size args))
                ++ named (lit "archived")
                     (jbool_opt (notion_post_database_query.archived args))
                ++ named (lit "in_trash")
                     (jbool_opt (notion_post_database_query.in_trash args))))))
      (lit "Notion API request (post-database-query) failed with status ")
      (lit "Failed to execute Notion post-database-query due to a network or unexpected error.").
Proof.
  intros Htok (parsed & Hparse & Htyped)%accepts_inv.
  cbn [typed notion_post_database_query.notionPostDatabaseQuery] in Htyped.
  unfold notion_post_database_query.typed, optional_value_arg in Htyped.
  destruct (string_arg (lit "database_id") parsed) as [id|]; [|discriminate].
  destruct (optional_string_arg (lit "start_cursor") parsed) as [cursor|];
    [|discriminate].
  destruct (optional_integer_arg (lit "page_size") parsed) as [size|];
    [|discriminate].
  destruct (optional_boolean_arg (lit "archived") parsed) as [archived|];
    [|discriminate].
  destruct (optional_boolean_arg (lit "in_trash") parsed) as [in_trash|];
    [|discriminate].
  injection Htyped as <-.
  cbn [parameters notion_post_database_query.notionPostDatabaseQuery]
    in Hparse.
  pose proof (fun k sk => parse_object_member _ _ _ _ _ k sk Hparse eq_refl)
    as Hmember.
  pose proof (Hmember (lit "filter") _ ltac:(simpl; auto 10)) as Hf.
  pose proof (Hmember (lit "sorts") _ ltac:(simpl; auto 10)) as Hs.
  apply optional_refined_object_truthy in Hf.
  apply optional_array_truthy in Hs as [_ Hs].
  cbn [execute notion_post_database_query.notionPostDatabaseQuery].
  unfold notion_post_database_query.execute, given.
  rewrite Htok.
  cbn [negb notion_post_database_query.filter
       notion_post_database_query.sorts
       notion_post_database_query.start_cursor
       notion_post_database_query.page_size
       notion_post_database_query.archived
       notion_post_database_query.in_trash
       notion_post_database_query.database_id].
  rewrite Hf, Hs.
  destruct (field (lit "filter") parsed), (field (lit "sorts") parsed),
    cursor as [[|c cursor]|], size, archived, in_trash; reflexivity.
Qed.

Lemma database_query_body_witness :
  notion_post_database_query.execute some_token
    (notion_post_database_query.mkArgs (lit "d1")
       (Some (JArray [JString (lit "title")]))
       (Some (JObject [(lit "or", JArray [])])) None None (Some 0%Z) None None)
  = round_trip
      (mkRequest POST
         (template_url
            (NOTION_API_BASE_URL ++ lit "/databases/" ++ lit "d1"
             ++ lit "/query") [])
         (notion_headers (template some_token))
         (Some
            (JObject
               [(lit "filter", JObject [(lit "or", JArray [])]);
                (lit "page_size", JNumber (Int 0))])))
      (lit "Notion API request (post-database-query) failed with status ")
      (lit "Failed to execute Notion post-database-query due to a network or unexpected error.").
Proof.
  exact (database_query_body some_token host_ok query_call
           (notion_post_database_query.mkArgs (lit "d1")
              (Some (JArray [JString (lit "title")]))
              (Some (JObject [(lit "or", JArray [])])) None None (Some 0%Z)
              None None)
           eq_refl eq_refl).
Defined.

(** X16. The filter of an accepted database query never has both an [or]
    and an [and] member, empty lists included. *)
Theorem filter_has_not_both_or_and_and
    (tok : option jsstring) h input
    (args : Args (notion_post_database_query.notionPostDatabaseQuery tok)) :
  accepts h (notion_post_database_query.notionPostDatabaseQuery tok) input
  = Some args ->
  forall filter,
    field (lit "filter") input = Some filter ->
    defined (field (lit "or") filter) && defined (field (lit "and") filter)
    = false.
Proof.
  intros (parsed & Hparse & _)%accepts_inv filter Hfilter.
  cbn [parameters notion_post_database_query.notionPostDatabaseQuery]
    in Hparse.
  pose proof (parse_object_member _ _ _ _ _ (lit "filter") _ Hparse eq_refl
                ltac:(simpl; auto 10)) as Hf.
  rewrite Hfilter in Hf.
  apply parse_optional in Hf as [[? _]|(x & [= <-] & Hf)]; [discriminate|].
  apply parse_refine in Hf as (v & _ & Hf & Hcheck).
  pose proof (parse_object_member _ _ _ _ _ (lit "or") _ Hf eq_refl
                ltac:(simpl; auto)) as [Ho1 Ho2]%optional_array_truthy.
  pose proof (parse_object_member _ _ _ _ _ (lit "and") _ Hf eq_refl
                ltac:(simpl; auto)) as [Ha1 Ha2]%optional_array_truthy.
  rewrite Ho2, Ha2, Ho1, Ha1 in Hcheck.
  apply negb_true_iff in Hcheck. exact Hcheck.
Qed.

Lemma filter_has_not_both_or_and_and_witness :
  defined (field (lit "or") (JObject [(lit "or", JArray [])]))
  && defined (field (lit "and") (JObject [(lit "or", JArray [])]))
  = false.
Proof.
  exact (filter_has_not_both_or_and_and some_token host_ok query_call
           (notion_post_database_query.mkArgs (lit "d1")
              (Some (JArray [JString (lit "title")]))
              (Some (JObject [(lit "or", JArray [])])) None None (Some 0%Z)
              None None)
           eq_refl (JObject [(lit "or", JArray [])]) eq_refl).
Defined.

(** X17. The [children] an accepted patch-block-children call sends is a
    non-empty list of blocks, each with the content object its [type] names
    and without the other one. *)
Theorem children_carry_what_their_type_names
    (tok : option jsstring) h input
    (args : Args (notion_patch_block_children.notionPatchBlockChildren tok)) :
  accepts h (notion_patch_block_children.notionPatchBlockChildren tok) input
  = Some args ->
  exists blocks,
    notion_patch_block_children.children args = JArray blocks
    /\ (0 < length blocks)%nat
    /\ Forall
         (fun block =>
            carries (lit "paragraph") (lit "bulleted_list_item") block
            \/ carries (lit "bulleted_list_item") (lit "paragraph") block)
         blocks.
Proof.
  intros (parsed & Hparse & Htyped)%accepts_inv.
  cbn [typed notion_patch_block_children.notionPatchBlockChildren] in Htyped.
  unfold notion_patch_block_children.typed, value_arg in Htyped.
  destruct (string_arg (lit "block_id") parsed) as [id|]; [|discriminate].
  destruct (field (lit "children") parsed) as [children|] eqn:Hchildren;
    [|discriminate].
  destruct (optional_string_arg (lit "after") parsed) as [after|];
    [|discriminate].
  injection Htyped as <-.
  cbn [parameters notion_patch_block_children.notionPatchBlockChildren]
    in Hparse.
  pose proof (parse_object_member _ _ _ _ _ (lit "children") _ Hparse eq_refl
                ltac:(simpl; auto)) as Hc.
  rewrite Hchildren in Hc.
  apply parse_array_inv in Hc as (items & blocks & _ & [= ->] & Hw & Heach).
  apply array_elements_each in Heach.
  exists blocks. split; [reflexivity|]. split.
  - rewrite <- (Forall2_length _ _ _ Heach).
    unfold within in Hw. apply andb_true_iff in Hw as [Hw _].
    apply Nat.leb_le in Hw. lia.
  - clear Hw Hchildren Hparse. induction Heach as [|x block items blocks Hx _ IH];
      constructor; [|exact IH].
    apply parse_refine in Hx as (v & [= <-] & _ & Hcheck).
    unfold carries.
    destruct (field (lit "type") block) as [[| |?|type| |]|]; try discriminate.
    destruct (str_eqb type (lit "paragraph")) eqn:Hp.
    + apply str_eqb_eq in Hp as ->.
      apply andb_true_iff in Hcheck as [H1 H2%negb_true_iff].
      left. destruct (field (lit "bulleted_list_item") block);
        [discriminate|auto].
    + destruct (str_eqb type (lit "bulleted_list_item")) eqn:Hb;
        [|discriminate].
      apply str_eqb_eq in Hb as ->.
      apply andb_true_iff in Hcheck as [H1 H2%negb_true_iff].
      right. destruct (field (lit "paragraph") block); [discriminate|auto].
Qed.

Lemma children_carry_what_their_type_names_witness :
  exists args blocks,
    accepts host_ok
      (notion_patch_block_children.notionPatchBlockChildren some_token)
      children_call = Some args
    /\ notion_patch_block_children.children args = JArray blocks
    /\ (0 < length blocks)%nat
    /\ Forall
         (fun block =>
            carries (lit "paragraph") (lit "bulleted_list_item") block
            \/ carries (lit "bulleted_list_item") (lit "paragraph") block)
         blocks.
Proof.
  destruct (accepts host_ok
              (notion_patch_block_children.notionPatchBlockChildren some_token)
              children_call) as [args|] eqn:Haccepts; [|discriminate].
  destruct (children_carry_what_their_type_names some_token host_ok
              children_call args Haccepts) as (blocks & H).
  exists args, blocks. split; [reflexivity|exact H].
Defined.

(** X18. An empty [start_cursor] is treated as none: the six adapters that
    take one run the same with an empty cursor as without a cursor. *)
Theorem empty_cursor_is_no_cursor :
  (forall tok page_size,
     notion_get_users.execute tok (notion_get_users.mkArgs (Some []) page_size)
     = notion_get_users.execute tok (notion_get_users.mkArgs None page_size))
  /\ (forall tok block_id page_size,
        notion_get_block_children.execute tok
          (notion_get_block_children.mkArgs block_id (Some []) page_size)
        = notion_get_block_children.execute tok
            (notion_get_block_children.mkArgs block_id None page_size))
  /\ (forall tok block_id page_size,
        notion_retrieve_a_comment.execute tok
          (notion_retrieve_a_comment.mkArgs block_id page_size (Some []))
        = notion_retrieve_a_comment.execute tok
            (notion_retrieve_a_comment.mkArgs block_id page_size None))
  /\ (forall tok page_id property_id page_size,
        notion_retrieve_a_page_property.execute tok
          (notion_retrieve_a_page_property.mkArgs page_id property_id
             page_size (Some []))
        = notion_retrieve_a_page_property.execute tok
            (notion_retrieve_a_page_property.mkArgs page_id property_id
               page_size None))
  /\ (forall tok database_id filter_properties filter sorts page_size
             archived in_trash,
        notion_post_database_query.execute tok
          (notion_post_database_query.mkArgs database_id filter_properties
             filter sorts (Some []) page_size archived in_trash)
        = notion_post_database_query.execute tok
            (notion_post_database_query.mkArgs database_id filter_properties
               filter sorts None page_size archived in_trash))
  /\ (forall notionToken query sort filter page_size,
        notion_post_search.execute
          (notion_post_search.mkArgs notionToken query sort filter (Some [])
             page_size)
        = notion_post_search.execute
            (notion_post_search.mkArgs notionToken query sort filter None
               page_size)).
Proof. repeat split; intros; reflexivity. Qed.

(** X19. A [page_size] of zero is dropped by retrieve-a-comment,
    retrieve-a-page-property and search: they run as without a page size. *)
Theorem zero_page_size_is_dropped :
  (forall tok block_id cursor,
     notion_retrieve_a_comment.execute tok
       (notion_retrieve_a_comment.mkArgs block_id (Some 0%Z) cursor)
     = notion_retrieve_a_comment.execute tok
         (notion_retrieve_a_comment.mkArgs block_id None cursor))
  /\ (forall tok page_id property_id cursor,
        notion_retrieve_a_page_property.execute tok
          (notion_retrieve_a_page_property.mkArgs page_id property_id
             (Some 0%Z) cursor)
        = notion_retrieve_a_page_property.execute tok
            (notion_retrieve_a_page_property.mkArgs page_id property_id
               None cursor))
  /\ (forall notionToken query sort filter cursor,
        notion_post_search.execute
          (notion_post_search.mkArgs notionToken query sort filter cursor
             (Some 0%Z))
        = notion_post_search.execute
            (notion_post_search.mkArgs notionToken query sort filter cursor
               None)).
Proof. repeat split; intros; reflexivity. Qed.







Lemma parse_refine_none url inner check input :
  parse url inner input = None -> parse url (ZRefine inner check) input = None.
Proof. simpl. intros ->. reflexivity. Qed.

Lemma forallb_false_in {A} (f : A -> bool) x l :
  In x l -> f x = false -> forallb f l = false.
Proof.
  induction l as [|y l IH]; simpl; [tauto|].
  intros [->|Hin] Hx; [rewrite Hx; reflexivity|].
  rewrite (IH Hin Hx). apply andb_false_r.
Qed.

(** X22. The update-a-block schema is strict: a call with a member whose key
    is not [block_id], [archived] or one of the ten block types is rejected,
    so that no unknown member can become the update that is sent. *)
Theorem update_a_block_rejects_unknown_keys
    (tok : option jsstring) h data k v :
  In (k, v) data ->
  existsb (str_eqb k)
    [lit "block_id"; lit "archived"; lit "paragraph"; lit "heading_1";
     lit "heading_2"; lit "heading_3"; lit "bulleted_list_item";
     lit "numbered_list_item"; lit "to_do"; lit "toggle"; lit "quote";
     lit "callout"] = false ->
  accepts h (notion_update_a_block.notionUpdateABlock tok) (JObject data)
  = None.
Proof.
  intros Hin Hk. unfold accepts.
  cbn [parameters notion_update_a_block.notionUpdateABlock].
  unfold notion_update_a_block.parameters,
    notion_update_a_block.UpdateBlockParametersSchema.
  rewrite parse_refine_none; [reflexivity|].
  unfold zstrict. rewrite parse_object.
  rewrite (forallb_false_in _ (k, v) data Hin); [reflexivity|].
  exact Hk.
Qed.

Lemma update_a_block_rejects_unknown_keys_witness :
  accepts host_ok (notion_update_a_block.notionUpdateABlock some_token)
    (JObject [(lit "block_id", JString (lit "b1"));
              (lit "archived", JBool true);
              (lit "color", JString (lit "red"))])
  = None.
Proof.
  apply (update_a_block_rejects_unknown_keys some_token host_ok _
           (lit "color") (JString (lit "red"))).
  - simpl. auto.
  - vm_compute. reflexivity.
Defined.

End AdapterFacts.

(** ** Where the requests go *)

Module Destination.

Import Samples Bodies ToolFacts.











#[local] Arguments lit : simpl never.
#[local] Arguments try_catch : simpl never.
#[local] Arguments fetch : simpl never.
#[local] Arguments response_json : simpl never.
#[local] Arguments JSON_parse : simpl never.
#[local] Arguments mbind : simpl never.
#[local] Arguments mret : simpl never.
#[local] Arguments Number_toString : simpl never.
#[local] Arguments new_URL : simpl never.
#[local] Arguments append : simpl never.
#[local] Arguments app : simpl never.







End Destination.
